(** * Text statistics tool ([test55.py]): a shallow embedding and its properties

    The script reads lines from a file or standard input, splits every line
    into lowercase word tokens, accumulates line, word and character counts
    together with a [Counter] of token frequencies, and prints the totals and
    the five most common words.

    Python values are embedded as follows.
    - A [str] is a sequence of Unicode code points: [list N].
    - An [int] is a [Z].
    - A [Counter] (a [dict] subclass, hence insertion ordered) is an
      association list kept in insertion order with one entry per key.
    - An [Iterable[str]] produced by a generator is a finite stream that may
      end with a raised exception.
    - Standard output is the sequence of texts handed to [print], one per
      call.
    The parts of the Python runtime that are tables of the Unicode database or
    the argument parser of the standard library are the fields of the class
    [PyRuntime]; everything else is executable. *)

From Stdlib Require Import List ZArith NArith Bool Lia.
From Stdlib Require Import Ascii String DecimalString.
From Stdlib Require Import Permutation Sorted.
From Stdlib Require DecimalPos DecimalZ.
Import ListNotations.

(** ** Python strings *)

(** A code point, [0 .. 0x10FFFF]. *)
Definition char := N.

Definition str := list char.

Definition ord (a : ascii) : char := N_of_ascii a.

(** The [str] written by an ASCII literal. *)
Definition py (s : string) : str := map ord (list_ascii_of_string s).

Definition char_in (c : char) (chars : str) : bool := existsb (N.eqb c) chars.

Definition str_eqb (s t : str) : bool :=
  if list_eq_dec N.eq_dec s t then true else false.

(** [len(s)] *)
Definition len {A : Type} (l : list A) : Z := Z.of_nat (List.length l).

(** Truthiness of a string: [if s:]. *)
Definition truthy (s : str) : bool :=
  match s with
  | [] => false
  | _ :: _ => true
  end.

(** [Py_UNICODE_ISSPACE]: the code points on which [str.split()] without
    arguments splits.  Below 128 this is the table [_Py_ascii_whitespace]
    (tab, line feed, vertical tab, form feed, carriage return, the four
    separators FS GS RS US, and space); above it is the list of
    [_PyUnicode_IsWhitespace]. *)
Definition isspace (c : char) : bool :=
  (((9 <=? c) && (c <=? 13))
   || ((28 <=? c) && (c <=? 32))
   || (c =? 133) || (c =? 160) || (c =? 5760)
   || ((8192 <=? c) && (c <=? 8202))
   || (c =? 8232) || (c =? 8233) || (c =? 8239) || (c =? 8287)
   || (c =? 12288))%N.

(** [s.split()]: the maximal runs of non-whitespace characters of [s], left
    to right.  [cur] holds, reversed, the run being read. *)
Fixpoint split_from (cur : str) (s : str) : list str :=
  match s with
  | [] =>
      match cur with
      | [] => []
      | _ :: _ => [rev cur]
      end
  | c :: s' =>
      if isspace c then
        match cur with
        | [] => split_from [] s'
        | _ :: _ => rev cur :: split_from [] s'
        end
      else split_from (c :: cur) s'
  end.

Definition split (s : str) : list str := split_from [] s.

(** [s.lstrip(chars)] *)
Fixpoint lstrip (chars : str) (s : str) : str :=
  match s with
  | [] => []
  | c :: s' => if char_in c chars then lstrip chars s' else s
  end.

(** [s.rstrip(chars)] *)
Fixpoint rstrip (chars : str) (s : str) : str :=
  match s with
  | [] => []
  | c :: s' =>
      match rstrip chars s' with
      | [] => if char_in c chars then [] else [c]
      | r => c :: r
      end
  end.

(** [s.strip(chars)] *)
Definition strip (chars : str) (s : str) : str := rstrip chars (lstrip chars s).

Definition is_ascii_char (c : char) : bool := (c <? 128)%N.

Definition is_ascii (s : str) : bool := forallb is_ascii_char s.

(** [Py_TOLOWER] on an ASCII code point. *)
Definition ascii_tolower (c : char) : char :=
  if ((65 <=? c) && (c <=? 90))%N then (c + 32)%N else c.

(** The argument of [strip] in [tokenize]: full stop, comma, exclamation and
    question marks, colon, semicolon, the double quote (code point 34), the
    apostrophe, and the round, square, curly and angle brackets. *)
Definition punctuation : str :=
  py ".,!?:;" ++ [34%N] ++ py "'()[]{}<>".

(** ** The runtime *)

(** A namespace returned by the argument parser of [build_parser]: its only
    attribute is [path], [None] when the positional argument is absent. *)
Record Namespace := { path : option str }.

Inductive Exn :=
| OSError (errno : Z) (filename : str)
| UnicodeDecodeError (reason : str)
| SystemExit (code : Z).

Inductive result (A : Type) :=
| Ok (a : A)
| Raise (e : Exn).

Arguments Ok {A} a.
Arguments Raise {A} e.

(** What the script takes from the Python runtime without defining it:
    - [unicode_lower], the case mapping [str.lower()] applies to a string that
      is not pure ASCII (the Unicode database, with its special casing);
    - [unicode_isprintable], [str.isprintable] on a code point above 127, which
      decides what [repr] escapes;
    - [parse_args], [ArgumentParser.parse_args] for the parser that
      [build_parser] builds: the namespace, or the [SystemExit] raised for a
      rejected command line or after the help, together with what it printed
      on standard output (the help). *)
Class PyRuntime := {
  unicode_lower : str -> str;
  unicode_isprintable : char -> bool;
  parse_args : list str -> result Namespace * list str
}.

Section Tokenizer.

Context {R : PyRuntime}.

(** [s.lower()]: an ASCII string is lowered code point by code point, any other
    string goes through the Unicode case mapping. *)
Definition lower (s : str) : str :=
  if is_ascii s then map ascii_tolower s else unicode_lower s.

(** [tokenize(line)] *)
Definition tokenize (line : str) : list str :=
  map (fun token => lower (strip punctuation token))
      (filter (fun token => truthy (strip punctuation token)) (split line)).

End Tokenizer.

(** ** Line sources *)

(** An [Iterable[str]] as the generators of the script produce it: finitely
    many values, then exhaustion or an exception. *)
Inductive Gen (A : Type) :=
| Stop
| Yield (a : A) (rest : Gen A)
| Fail (e : Exn).

Arguments Stop {A}.
Arguments Yield {A} a rest.
Arguments Fail {A} e.

(** The generator that yields the elements of a list and stops. *)
Fixpoint yield_all {A : Type} (l : list A) : Gen A :=
  match l with
  | [] => Stop
  | a :: l' => Yield a (yield_all l')
  end.

(** Iterating over a text stream opened with the default [newline=None]:
    carriage return + line feed, and a lone carriage return, are read as a
    line feed; a line ends after its line feed, the last one where the text
    ends.  [cur] holds, reversed, the line being read. *)
Fixpoint readlines_from (cur : str) (text : str) : list str :=
  match text with
  | [] =>
      match cur with
      | [] => []
      | _ :: _ => [rev cur]
      end
  | c :: text' =>
      if (c =? 10)%N then rev (10%N :: cur) :: readlines_from [] text'
      else if (c =? 13)%N then
        match text' with
        | d :: text'' =>
            if (d =? 10)%N then rev (10%N :: cur) :: readlines_from [] text''
            else rev (10%N :: cur) :: readlines_from [] text'
        | [] => [rev (10%N :: cur)]
        end
      else readlines_from (c :: cur) text'
  end.

Definition readlines (text : str) : list str := readlines_from [] text.

(** What a run of the script finds around it: the command line, the files
    ([open] with UTF-8 decoding and [errors="replace"] gives the decoded text,
    or raises an [OSError]), and standard input.  Standard input is what
    iterating over [sys.stdin] gives: its lines, cut and decoded the way of
    the platform (line feeds end lines everywhere, carriage returns only
    where [sys.stdin] translates them), and then the end of the input or the
    exception that reading raises. *)
Record World := {
  sys_argv : list str;
  open_file : str -> result str;
  stdin_lines : Gen str;
  stdin_isatty : bool
}.

(** [read_lines_from_file(path)] *)
Definition read_lines_from_file (w : World) (path : str) : Gen str :=
  match open_file w path with
  | Raise e => Fail e
  | Ok text => yield_all (readlines text)
  end.

(** [for x in it: yield x]: the generator that yields what [it] yields and
    raises what [it] raises. *)
Fixpoint yield_from {A : Type} (it : Gen A) : Gen A :=
  match it with
  | Stop => Stop
  | Yield a rest => Yield a (yield_from rest)
  | Fail e => Fail e
  end.

(** [read_lines_from_stdin()] *)
Definition read_lines_from_stdin (w : World) : Gen str :=
  yield_from (stdin_lines w).

(** ** The counter *)

(** [collections.Counter]: the items in insertion order. *)
Definition Counter := list (str * Z).

(** [d.get(key, default)] *)
Fixpoint dict_get (d : Counter) (key : str) (default : Z) : Z :=
  match d with
  | [] => default
  | (k, v) :: d' => if str_eqb k key then v else dict_get d' key default
  end.

(** [d[key] = value]: a present key keeps its place, a new one goes last. *)
Fixpoint dict_set (d : Counter) (key : str) (value : Z) : Counter :=
  match d with
  | [] => [(key, value)]
  | (k, v) :: d' =>
      if str_eqb k key then (k, value) :: d' else (k, v) :: dict_set d' key value
  end.

(** [counter.update(iterable)]: for each element,
    [self[elem] = self.get(elem, 0) + 1]. *)
Definition counter_update (counter : Counter) (iterable : list str) : Counter :=
  fold_left (fun c elem => dict_set c elem (dict_get c elem 0 + 1)) iterable counter.

(** Insertion of an item into a list sorted by decreasing count, before the
    first item whose count is not larger. *)
Fixpoint insert_by_count (e : str * Z) (l : list (str * Z)) : list (str * Z) :=
  match l with
  | [] => [e]
  | x :: l' => if (snd x <=? snd e)%Z then e :: l else x :: insert_by_count e l'
  end.

(** [sorted(items, key=itemgetter(1), reverse=True)]: a stable sort, items of
    equal count keep the order they have in [items]. *)
Fixpoint sorted_by_count (items : list (str * Z)) : list (str * Z) :=
  match items with
  | [] => []
  | e :: items' => insert_by_count e (sorted_by_count items')
  end.

(** [counter.most_common(n)], that is [heapq.nlargest(n, counter.items(),
    key=itemgetter(1))], which is [sorted(..., reverse=True)[:n]]. *)
Definition most_common (n : Z) (counter : Counter) : list (str * Z) :=
  firstn (Z.to_nat n) (sorted_by_count counter).

(** ** The aggregator *)

Section Aggregator.

Context {R : PyRuntime}.

(** The loop of [text_stats], from the state [(line_count, word_count,
    char_count, counter)]. *)
Fixpoint text_stats_loop (lines : Gen str) (st : Z * Z * Z * Counter)
  : result (Z * Z * Z * Counter) :=
  match lines with
  | Stop => Ok st
  | Fail e => Raise e
  | Yield line rest =>
      let '(line_count, word_count, char_count, counter) := st in
      let line_count := (line_count + 1)%Z in
      let char_count := (char_count + len line)%Z in
      let tokens := tokenize line in
      let word_count := (word_count + len tokens)%Z in
      let counter := counter_update counter tokens in
      text_stats_loop rest (line_count, word_count, char_count, counter)
  end.

(** [text_stats(lines)] *)
Definition text_stats (lines : Gen str) : result (Z * Z * Z * Counter) :=
  text_stats_loop lines (0%Z, 0%Z, 0%Z, []).

End Aggregator.

(** ** The reporter *)

(** [str(n)] of an [int]: its decimal digits, after a minus sign when it is
    negative. *)
Definition str_of_int (n : Z) : str := py (NilZero.string_of_int (Z.to_int n)).

(** [Py_hexdigits[n]] for [n < 16]. *)
Definition hexdigit (n : N) : char := nth (N.to_nat n) (py "0123456789abcdef") 48%N.

(** The [k] lowest hexadecimal digits of [c], most significant first. *)
Fixpoint hex (k : nat) (c : N) : str :=
  match k with
  | O => []
  | S k' => hex k' (N.shiftr c 4) ++ [hexdigit (N.land c 15)]
  end.

Section Reporter.

Context {R : PyRuntime}.

(** What [repr] writes for one code point between the quotes [quote]. *)
Definition repr_char (quote : char) (ch : char) : str :=
  if (ch =? quote)%N || (ch =? 92)%N then [92%N; ch]
  else if (ch =? 9)%N then py "\t"
  else if (ch =? 10)%N then py "\n"
  else if (ch =? 13)%N then py "\r"
  else if (ch <? 32)%N || (ch =? 127)%N then py "\x" ++ hex 2 ch
  else if (ch <? 127)%N then [ch]
  else if unicode_isprintable ch then [ch]
  else if (ch <=? 255)%N then py "\x" ++ hex 2 ch
  else if (ch <=? 65535)%N then py "\u" ++ hex 4 ch
  else py "\U" ++ hex 8 ch.

(** [repr(s)] of a [str]: between apostrophes, or between double quotes when
    [s] has an apostrophe and no double quote. *)
Definition repr (s : str) : str :=
  let quote := if char_in 39%N s && negb (char_in 34%N s) then 34%N else 39%N in
  [quote] ++ flat_map (repr_char quote) s ++ [quote].

(** [print(text)]: standard output, as the texts handed to [print] so far,
    gets one more.  The stream is taken to accept every text; a stream that
    refuses one (an encoding without some character, a closed pipe) is not
    part of this model. *)
Definition print (text : str) (stdout : list str) : list str := stdout ++ [text].

(** [print_stats(line_count, word_count, char_count, counter)] *)
Definition print_stats (line_count word_count char_count : Z) (counter : Counter)
    (stdout : list str) : list str :=
  let stdout := print (py "Lines: " ++ str_of_int line_count) stdout in
  let stdout := print (py "Words: " ++ str_of_int word_count) stdout in
  let stdout := print (py "Characters: " ++ str_of_int char_count) stdout in
  let stdout := print (py "Top 5 words:") stdout in
  fold_left
    (fun stdout '(word, cnt) => print (py "  " ++ repr word ++ py ": " ++ str_of_int cnt) stdout)
    (most_common 5 counter) stdout.

(** ** The entry point *)

Definition stdin_prompt : str :=
  py "Reading from stdin. Type/paste text and press Ctrl-D (Unix) or Ctrl-Z (Windows) to end.".

(** [main(argv)]: what it returns or raises, and standard output afterwards.
    [parse_args(None)] parses [sys.argv[1:]]. *)
Definition main (argv : option (list str)) (w : World) (stdout : list str)
  : result Z * list str :=
  let '(parsed, printed) :=
    parse_args (match argv with
                | None => tl (sys_argv w)
                | Some a => a
                end) in
  let stdout := stdout ++ printed in
  match parsed with
  | Raise e => (Raise e, stdout)
  | Ok args =>
      let '(lines, stdout) :=
        match path args with
        | Some p =>
            if truthy p then (read_lines_from_file w p, stdout)
            else
              (read_lines_from_stdin w,
               if stdin_isatty w then print stdin_prompt stdout else stdout)
        | None =>
            (read_lines_from_stdin w,
             if stdin_isatty w then print stdin_prompt stdout else stdout)
        end in
      match text_stats lines with
      | Raise e => (Raise e, stdout)
      | Ok (line_count, word_count, char_count, counter) =>
          (Ok 0%Z, print_stats line_count word_count char_count counter stdout)
      end
  end.

(** The exit status of the interpreter when the exception [e] reaches the top
    level: the code of a [SystemExit], 1 for any other exception. *)
Definition exit_status (e : Exn) : Z :=
  match e with
  | SystemExit code => code
  | OSError _ _ => 1%Z
  | UnicodeDecodeError _ => 1%Z
  end.

(** The script run as a program, [raise SystemExit(main())]: exit status and
    standard output. *)
Definition run (w : World) : Z * list str :=
  match main None w [] with
  | (Ok code, stdout) => (exit_status (SystemExit code), stdout)
  | (Raise e, stdout) => (exit_status e, stdout)
  end.

End Reporter.

(** A small runtime to run the script in: no case mapping and nothing
    printable above ASCII, and a parser that prints nothing, takes no
    argument or one that is not an option (a hyphen and more), and rejects
    any other command line with status 2. *)
Definition ascii_parse_args (argv : list str) : result Namespace * list str :=
  match argv with
  | [] => (Ok {| path := None |}, [])
  | [p] =>
      match p with
      | 45%N :: _ :: _ => (Raise (SystemExit 2), [])
      | _ => (Ok {| path := Some p |}, [])
      end
  | _ => (Raise (SystemExit 2), [])
  end.

Definition ascii_runtime : PyRuntime := {|
  unicode_lower := fun s => s;
  unicode_isprintable := fun _ => false;
  parse_args := ascii_parse_args
|}.

(** The lower case of a code point of Latin-1: the letters A to Z, and the
    accented capitals from 192 to 222 (the multiplication sign, 215, is no
    letter), are 32 below their small letters. *)
Definition latin1_tolower (c : char) : char :=
  if (((65 <=? c) && (c <=? 90))
      || ((192 <=? c) && (c <=? 222) && negb (c =? 215)))%N
  then (c + 32)%N else c.

(** The same runtime with the case mapping of Latin-1. *)
Definition latin1_runtime : PyRuntime := {|
  unicode_lower := map latin1_tolower;
  unicode_isprintable := fun _ => false;
  parse_args := ascii_parse_args
|}.

(** ** Specifications *)

(** [pieces s ps]: [ps] are the maximal runs of non-whitespace characters of
    [s], from left to right.  A run is not empty, holds no whitespace, and
    ends where [s] ends or where a whitespace character follows; the
    whitespace between the runs is skipped. *)
Inductive pieces : str -> list str -> Prop :=
| pieces_end : pieces [] []
| pieces_skip : forall c s ps,
    isspace c = true -> pieces s ps -> pieces (c :: s) ps
| pieces_run : forall p s ps,
    p <> [] -> existsb isspace p = false ->
    existsb isspace (firstn 1 s) = true \/ s = [] ->
    pieces s ps -> pieces (p ++ s) (p :: ps).

(** Neither the first nor the last character of [t] is in [chars]. *)
Definition ends_outside (chars : str) (t : str) : bool :=
  match t with
  | [] => true
  | c :: _ => negb (char_in c chars) && negb (char_in (last t c) chars)
  end.

(** [stripped chars s t]: [t] is [s] without its longest prefix and its longest
    suffix of characters of [chars]. *)
Definition stripped (chars : str) (s t : str) : Prop :=
  exists a b, s = a ++ t ++ b
              /\ forallb (fun c => char_in c chars) a = true
              /\ forallb (fun c => char_in c chars) b = true
              /\ ends_outside chars t = true.

(** The shape of a token: not empty, free of whitespace, and with no
    punctuation at either end. *)
Definition token_shaped (t : str) : bool :=
  truthy t && negb (existsb isspace t) && ends_outside punctuation t.

(** The tokenizer in the words of its description: split, strip, drop what
    is empty, lower. *)
Definition tokenize_spec {R : PyRuntime} (line : str) : list str :=
  map lower (filter truthy (map (strip punctuation) (split line))).

(** A runtime keeps the shape of tokens when lowering a non-ASCII string
    that has the shape of a token gives a string of that shape which lowering
    leaves unchanged. *)
Definition lower_keeps_tokens (R : PyRuntime) : Prop :=
  forall s, is_ascii s = false -> token_shaped s = true ->
    token_shaped (unicode_lower s) = true
    /\ lower (unicode_lower s) = unicode_lower s.

(** The values a generator yields before it ends. *)
Fixpoint yielded {A : Type} (g : Gen A) : list A :=
  match g with
  | Stop => []
  | Yield a rest => a :: yielded rest
  | Fail _ => []
  end.

(** The exception a generator ends with, if it ends with one. *)
Fixpoint raised {A : Type} (g : Gen A) : option Exn :=
  match g with
  | Stop => None
  | Yield _ rest => raised rest
  | Fail e => Some e
  end.

(** The sum of the values of a counter. *)
Definition total (counter : Counter) : Z :=
  fold_right Z.add 0%Z (map snd counter).

(** The number of occurrences of [k] in [l], as an [int]. *)
Definition occurrences (l : list str) (k : str) : Z :=
  Z.of_nat (count_occ (list_eq_dec N.eq_dec) l k).

(** The sum of the lengths of the strings of [l]. *)
Definition total_len (l : list str) : Z :=
  fold_right Z.add 0%Z (map len l).

(** The order of the ranking: the count of [a] is at least that of [b]. *)
Definition count_ge (a b : str * Z) : Prop := (snd b <= snd a)%Z.

(** The items of [l] whose count is [n], in the order of [l]. *)
Definition with_count (n : Z) (l : list (str * Z)) : list (str * Z) :=
  filter (fun e => (snd e =? n)%Z) l.

(** The line of the report for one item: [f"  {word!r}: {cnt}"]. *)
Definition entry_line {R : PyRuntime} (e : str * Z) : str :=
  py "  " ++ repr (fst e) ++ py ": " ++ str_of_int (snd e).

(** The text of two lines of claim C4. *)
Definition cat_text : str :=
  py "the cat sat on the mat" ++ [10%N] ++ py "the cat ran" ++ [10%N].

(** The four lines every report starts with. *)
Definition report_head (line_count word_count char_count : Z) : list str :=
  [py "Lines: " ++ str_of_int line_count;
   py "Words: " ++ str_of_int word_count;
   py "Characters: " ++ str_of_int char_count;
   py "Top 5 words:"].

(** A world in which no file can be opened, run on the path "missing.txt". *)
Definition missing_file_world : World := {|
  sys_argv := [py "test55.py"; py "missing.txt"];
  open_file := fun p => Raise (OSError 2 p);
  stdin_lines := Yield (py "never read") Stop;
  stdin_isatty := false
|}.

(** A world whose files are all empty, run on the path "empty.txt". *)
Definition empty_file_world : World := {|
  sys_argv := [py "test55.py"; py "empty.txt"];
  open_file := fun _ => Ok [];
  stdin_lines := Yield (py "never read") Stop;
  stdin_isatty := false
|}.

(** A world in which no file can be opened, run with the empty string for
    its path argument, on a standard input of one line that is not a
    terminal. *)
Definition empty_path_world : World := {|
  sys_argv := [py "test55.py"; []];
  open_file := fun p => Raise (OSError 2 p);
  stdin_lines := Yield (py "a b" ++ [10%N]) Stop;
  stdin_isatty := false
|}.

(** A world run without argument, on an empty standard input that is not a
    terminal. *)
Definition empty_stdin_world : World := {|
  sys_argv := [py "test55.py"];
  open_file := fun p => Raise (OSError 2 p);
  stdin_lines := Stop;
  stdin_isatty := false
|}.

(** [sep.join(l)] *)
Fixpoint join (sep : str) (l : list str) : str :=
  match l with
  | [] => []
  | a :: l' =>
      match l' with
      | [] => a
      | _ :: _ => a ++ sep ++ join sep l'
      end
  end.

(** The strings of [l] that are neither in [seen] nor earlier in [l], in the
    order of [l]: each string where it first occurs. *)
Fixpoint first_seen (seen : list str) (l : list str) : list str :=
  match l with
  | [] => []
  | a :: l' =>
      if existsb (str_eqb a) seen then first_seen seen l'
      else a :: first_seen (a :: seen) l'
  end.

(** A printable ASCII character other than the backslash and the two
    quotes: what [repr] writes as it is, whatever the quotes around. *)
Definition plain_char (c : char) : bool :=
  ((32 <=? c) && (c <? 127) && negb (c =? 92) && negb (c =? 39)
   && negb (c =? 34))%N.

(** A text ends in the middle of a line: it is not empty and its last
    character is no line feed. *)
Definition unterminated (text : str) : bool := negb (last text 10 =? 10)%N.

(** The number of line feeds of a text. *)
Definition line_feeds (text : str) : Z :=
  Z.of_nat (count_occ N.eq_dec text 10%N).

(** A line as a text stream gives it: not empty, free of carriage returns,
    and with no line feed but, possibly, as its last character. *)
Definition stream_line (line : str) : bool :=
  truthy line && negb (existsb (N.eqb 13) line)
  && negb (existsb (N.eqb 10) (removelast line)).

(** A world whose every path opens a file of content [text], run on the path
    "in.txt" with [stdin] as standard input, from a terminal or not. *)
Definition file_world (text : str) (stdin : Gen str) (isatty : bool) : World := {|
  sys_argv := [py "test55.py"; py "in.txt"];
  open_file := fun _ => Ok text;
  stdin_lines := stdin;
  stdin_isatty := isatty
|}.

(** A world run without argument on the standard input [stdin]. *)
Definition stdin_world (stdin : Gen str) (isatty : bool) : World := {|
  sys_argv := [py "test55.py"];
  open_file := fun p => Raise (OSError 2 p);
  stdin_lines := stdin;
  stdin_isatty := isatty
|}.

(** The world [w] with another standard input. *)
Definition with_stdin (w : World) (stdin : Gen str) (isatty : bool) : World := {|
  sys_argv := sys_argv w;
  open_file := open_file w;
  stdin_lines := stdin;
  stdin_isatty := isatty
|}.

(** The world [w] with other files. *)
Definition with_files (w : World) (files : str -> result str) : World := {|
  sys_argv := sys_argv w;
  open_file := files;
  stdin_lines := stdin_lines w;
  stdin_isatty := stdin_isatty w
|}.

(** ** Strings: [split] and [strip] *)

Lemma char_in_In (c : char) (chars : str) :
  char_in c chars = true <-> In c chars.
Proof.
  unfold char_in. rewrite existsb_exists. split.
  - intros [x [Hx Heq]]. apply N.eqb_eq in Heq. now subst.
  - intros H. exists c. split; [assumption | apply N.eqb_refl].
Qed.

Lemma str_eqb_eq (s t : str) : str_eqb s t = true <-> s = t.
Proof.
  unfold str_eqb. destruct (list_eq_dec N.eq_dec s t); split; congruence.
Qed.

Lemma str_eqb_refl (s : str) : str_eqb s s = true.
Proof. now apply str_eqb_eq. Qed.

Lemma str_eqb_neq (s t : str) : str_eqb s t = false <-> s <> t.
Proof.
  unfold str_eqb. destruct (list_eq_dec N.eq_dec s t); split; congruence.
Qed.

Lemma truthy_nonempty (s : str) : truthy s = true <-> s <> [].
Proof. destruct s; simpl; split; congruence. Qed.

Lemma existsb_rev {A : Type} (f : A -> bool) (l : list A) :
  existsb f (rev l) = existsb f l.
Proof.
  induction l as [|a l IH]; simpl; [reflexivity|].
  rewrite existsb_app, IH. simpl. rewrite orb_false_r. apply orb_comm.
Qed.

(** [split] cuts a string into its maximal runs of non-whitespace. *)
Lemma split_from_pieces (s cur : str) :
  existsb isspace cur = false ->
  pieces (rev cur ++ s) (split_from cur s).
Proof.
  revert cur. induction s as [|c s IH]; intros cur Hcur; simpl.
  - destruct cur as [|d cur].
    + constructor.
    + apply pieces_run.
      * intros E. apply (f_equal (@List.length _)) in E.
        rewrite length_rev in E. discriminate.
      * now rewrite existsb_rev.
      * now right.
      * constructor.
  - destruct (isspace c) eqn:Hc.
    + destruct cur as [|d cur].
      * simpl. apply pieces_skip; [assumption|]. apply (IH []). reflexivity.
      * apply pieces_run.
        -- intros E. apply (f_equal (@List.length _)) in E.
           rewrite length_rev in E. discriminate.
        -- now rewrite existsb_rev.
        -- left. simpl. now rewrite Hc.
        -- apply pieces_skip; [assumption|]. apply (IH []). reflexivity.
    + replace (rev cur ++ c :: s) with (rev (c :: cur) ++ s)
        by (simpl; now rewrite <- app_assoc).
      apply IH. simpl. now rewrite Hc.
Qed.

Lemma split_pieces (s : str) : pieces s (split s).
Proof. apply (split_from_pieces s []). reflexivity. Qed.

(** Two runs that start at the same place are the same run. *)
Lemma run_unique (p q s t : str) :
  p ++ s = q ++ t ->
  existsb isspace p = false -> existsb isspace q = false ->
  existsb isspace (firstn 1 s) = true \/ s = [] ->
  existsb isspace (firstn 1 t) = true \/ t = [] ->
  p = q /\ s = t.
Proof.
  revert q. induction p as [|a p IH]; intros q E Hp Hq Hs Ht.
  - destruct q as [|b q]; [now split|]. simpl in E. subst s.
    simpl in Hq, Hs. apply orb_false_elim in Hq. destruct Hq as [Hb _].
    destruct Hs as [Hs|Hs]; [|discriminate].
    rewrite Hb in Hs. discriminate.
  - destruct q as [|b q].
    + simpl in E. subst t. simpl in Hp, Ht.
      apply orb_false_elim in Hp. destruct Hp as [Ha _].
      destruct Ht as [Ht|Ht]; [|discriminate].
      rewrite Ha in Ht. discriminate.
    + simpl in E. injection E as -> E. simpl in Hp, Hq.
      apply orb_false_elim in Hp. apply orb_false_elim in Hq.
      destruct (IH q E (proj2 Hp) (proj2 Hq) Hs Ht) as [-> ->]. now split.
Qed.

(** The runs of a string are determined: [pieces] is a function. *)
Lemma pieces_unique (s : str) (ps qs : list str) :
  pieces s ps -> pieces s qs -> ps = qs.
Proof.
  intros H. revert qs. induction H as [|c s ps Hc H IH|p s ps Hne Hp Hs H IH];
    intros qs Hq.
  - inversion Hq as [|? ? ? ? ?|q t qs' Hqne Hq1 Ht Hq2 E]; subst; [reflexivity|].
    destruct q; [congruence|discriminate].
  - inversion Hq as [|c' s' qs' Hc' Hq'|q t qs' Hqne Hq1 Ht Hq2 E]; subst.
    + now apply IH.
    + destruct q as [|b q]; [congruence|]. simpl in E. injection E as -> _.
      simpl in Hq1. rewrite Hc in Hq1. discriminate.
  - destruct p as [|a p]; [congruence|].
    inversion Hq as [|c' s' qs' Hc' Hq'|q t qs' Hqne Hq1 Ht Hq2 E]; subst.
    + simpl in Hp. rewrite Hc' in Hp. discriminate.
    + destruct (run_unique (a :: p) q s t (eq_sym E) Hp Hq1 Hs Ht) as [<- <-].
      f_equal. now apply IH.
Qed.

Lemma pieces_In (s : str) (ps : list str) :
  pieces s ps ->
  forall p, In p ps ->
    p <> [] /\ existsb isspace p = false /\ (forall c, In c p -> In c s).
Proof.
  induction 1 as [|c s ps Hc H IH|q s ps Hne Hq Hs H IH]; intros p Hin.
  - destruct Hin.
  - destruct (IH p Hin) as (H1 & H2 & H3).
    repeat split; [assumption..|]. intros d Hd. right. now apply H3.
  - destruct Hin as [<-|Hin].
    + repeat split; [assumption..|]. intros d Hd. apply in_or_app. now left.
    + destruct (IH p Hin) as (H1 & H2 & H3).
      repeat split; [assumption..|]. intros d Hd. apply in_or_app. right. now apply H3.
Qed.

(** A string that is one run is its own only piece. *)
Lemma split_run (t : str) :
  t <> [] -> existsb isspace t = false -> split t = [t].
Proof.
  intros Hne Ht. apply (pieces_unique t); [apply split_pieces|].
  rewrite <- (app_nil_r t) at 1.
  apply pieces_run; [assumption | assumption | now right | constructor].
Qed.

Lemma lstrip_spec (chars s : str) :
  exists a, s = a ++ lstrip chars s
            /\ forallb (fun c => char_in c chars) a = true
            /\ match lstrip chars s with
               | [] => True
               | c :: _ => char_in c chars = false
               end.
Proof.
  induction s as [|c s IH]; simpl.
  - exists []. now repeat split.
  - destruct (char_in c chars) eqn:Hc.
    + destruct IH as (a & E & Ha & Hhd). exists (c :: a). repeat split.
      * simpl. now f_equal.
      * simpl. now rewrite Hc.
      * assumption.
    + exists []. now repeat split.
Qed.

Lemma rstrip_cons (chars : str) (c : char) (s : str) :
  rstrip chars (c :: s) = [] \/ exists r, rstrip chars (c :: s) = c :: r.
Proof.
  simpl. destruct (rstrip chars s) as [|d r].
  - destruct (char_in c chars); [now left | right; now exists []].
  - right. now exists (d :: r).
Qed.

Lemma rstrip_spec (chars s : str) :
  exists b, s = rstrip chars s ++ b
            /\ forallb (fun c => char_in c chars) b = true
            /\ forall d, rstrip chars s <> [] ->
                         char_in (last (rstrip chars s) d) chars = false.
Proof.
  induction s as [|c s IH].
  - exists []. repeat split. intros d H. now contradiction H.
  - destruct IH as (b & E & Hb & Hlast). simpl.
    destruct (rstrip chars s) as [|e r] eqn:Hr.
    + destruct (char_in c chars) eqn:Hc.
      * exists (c :: b). repeat split.
        -- simpl in E. now rewrite <- E.
        -- simpl. now rewrite Hc.
        -- intros d H. now contradiction H.
      * exists b. repeat split.
        -- simpl in *. now f_equal.
        -- assumption.
        -- intros d _. exact Hc.
    + exists b. repeat split.
      * simpl in *. now f_equal.
      * assumption.
      * intros d _. change (last (c :: e :: r) d) with (last (e :: r) d).
        apply Hlast. discriminate.
Qed.

(** A string that ends outside [chars] loses nothing on the right. *)
Lemma rstrip_fixed (chars t : str) (d : char) :
  t <> [] -> char_in (last t d) chars = false -> rstrip chars t = t.
Proof.
  induction t as [|c t IH]; intros Hne Hlast; [congruence|].
  destruct t as [|e t].
  - simpl in *. now rewrite Hlast.
  - change (last (c :: e :: t) d) with (last (e :: t) d) in Hlast.
    specialize (IH ltac:(discriminate) Hlast).
    change (rstrip chars (c :: e :: t)) with
      (match rstrip chars (e :: t) with
       | [] => if char_in c chars then [] else [c]
       | r => c :: r
       end).
    now rewrite IH.
Qed.

Lemma rstrip_app_in (chars t b : str) :
  forallb (fun c => char_in c chars) b = true ->
  rstrip chars (t ++ b) = rstrip chars t.
Proof.
  intros Hb. induction t as [|c t IH]; simpl.
  - induction b as [|e b IHb]; [reflexivity|]. simpl in *.
    apply andb_prop in Hb. destruct Hb as [He Hb].
    now rewrite (IHb Hb), He.
  - now rewrite IH.
Qed.

Lemma lstrip_app_in (chars a t : str) :
  forallb (fun c => char_in c chars) a = true ->
  lstrip chars (a ++ t) = lstrip chars t.
Proof.
  induction a as [|c a IH]; intros Ha; simpl in *; [reflexivity|].
  apply andb_prop in Ha. destruct Ha as [Hc Ha]. rewrite Hc. now apply IH.
Qed.

Lemma last_indep {A : Type} (l : list A) (d e : A) :
  l <> [] -> last l d = last l e.
Proof.
  induction l as [|a l IH]; intros H; [congruence|].
  destruct l as [|b l]; [reflexivity|].
  change (last (b :: l) d = last (b :: l) e). apply IH. discriminate.
Qed.

(** [strip] removes the longest prefix and the longest suffix in [chars]. *)
Lemma strip_stripped (chars s : str) : stripped chars s (strip chars s).
Proof.
  unfold stripped, strip.
  destruct (lstrip_spec chars s) as (a & Ea & Ha & Hhd).
  destruct (rstrip_spec chars (lstrip chars s)) as (b & Eb & Hb & Hlast).
  exists a, b. repeat split; [|assumption|assumption|].
  - rewrite <- Eb. exact Ea.
  - destruct (lstrip chars s) as [|c l] eqn:El; [reflexivity|].
    destruct (rstrip_cons chars c l) as [E|[r E]]; rewrite E; [reflexivity|].
    unfold ends_outside. rewrite Hhd. cbn [negb andb].
    rewrite <- E, Hlast; [reflexivity|]. rewrite E. discriminate.
Qed.

(** [stripped] determines its result: it is [strip]. *)
Lemma stripped_unique (chars s t : str) :
  stripped chars s t -> t = strip chars s.
Proof.
  intros (a & b & -> & Ha & Hb & Hends). unfold strip.
  rewrite (lstrip_app_in chars a (t ++ b) Ha).
  destruct t as [|c t].
  - simpl. clear Ha Hends. induction b as [|e b IH]; [reflexivity|].
    simpl in *. apply andb_prop in Hb. destruct Hb as [He Hb].
    rewrite He. now apply IH.
  - simpl in Hends. apply andb_prop in Hends. destruct Hends as [Hc Hl].
    apply negb_true_iff in Hc, Hl.
    change ((c :: t) ++ b) with (c :: (t ++ b)). simpl lstrip. rewrite Hc.
    change (c :: t ++ b) with ((c :: t) ++ b).
    rewrite (rstrip_app_in chars (c :: t) b Hb).
    symmetry. apply (rstrip_fixed chars (c :: t) c); [discriminate|assumption].
Qed.

(** A string that starts and ends outside [chars] is left as it is. *)
Lemma strip_fixed (chars t : str) :
  ends_outside chars t = true -> strip chars t = t.
Proof.
  intros H. symmetry. apply stripped_unique.
  exists [], []. rewrite app_nil_r. now repeat split.
Qed.

(** ** Lower case of ASCII *)

Lemma isspace_range (c : char) :
  isspace c = true -> (9 <= c <= 32 \/ c = 133 \/ c = 160 \/ 5760 <= c)%N.
Proof.
  unfold isspace. rewrite !orb_true_iff, !andb_true_iff, !N.leb_le, !N.eqb_eq. lia.
Qed.

Lemma punctuation_range (c : char) :
  char_in c punctuation = true ->
  (c <= 125 /\ (c < 65 \/ 90 < c < 97 \/ 122 < c))%N.
Proof.
  rewrite char_in_In. cbv [punctuation py ord map list_ascii_of_string app N_of_ascii N_of_digits].
  simpl. intuition (subst; lia).
Qed.

Lemma ascii_tolower_cases (c : char) :
  ascii_tolower c = c \/ ((65 <= c <= 90)%N /\ ascii_tolower c = (c + 32)%N).
Proof.
  unfold ascii_tolower. destruct ((65 <=? c) && (c <=? 90))%N eqn:E; [|now left].
  apply andb_prop in E. destruct E as [E1 E2]. apply N.leb_le in E1, E2. right. lia.
Qed.

Lemma isspace_ascii_tolower (c : char) : isspace (ascii_tolower c) = isspace c.
Proof.
  destruct (ascii_tolower_cases c) as [->|[Hc ->]]; [reflexivity|].
  destruct (isspace c) eqn:E1; [apply isspace_range in E1; lia|].
  destruct (isspace (c + 32)%N) eqn:E2; [apply isspace_range in E2; lia|reflexivity].
Qed.

Lemma punctuation_ascii_tolower (c : char) :
  char_in (ascii_tolower c) punctuation = char_in c punctuation.
Proof.
  destruct (ascii_tolower_cases c) as [->|[Hc ->]]; [reflexivity|].
  destruct (char_in c punctuation) eqn:E1; [apply punctuation_range in E1; lia|].
  destruct (char_in (c + 32)%N punctuation) eqn:E2;
    [apply punctuation_range in E2; lia|reflexivity].
Qed.

Lemma ascii_tolower_idem (c : char) :
  ascii_tolower (ascii_tolower c) = ascii_tolower c.
Proof.
  destruct (ascii_tolower_cases c) as [E|[Hc E]]; [now rewrite !E|rewrite E].
  unfold ascii_tolower. destruct ((65 <=? c + 32) && (c + 32 <=? 90))%N eqn:E';
    [|reflexivity].
  apply andb_prop in E'. destruct E' as [E1 E2]. apply N.leb_le in E1, E2. lia.
Qed.

Lemma is_ascii_tolower (s : str) :
  is_ascii (map ascii_tolower s) = is_ascii s.
Proof.
  unfold is_ascii. induction s as [|c s IH]; simpl; [reflexivity|].
  rewrite IH. f_equal. unfold is_ascii_char.
  destruct (ascii_tolower_cases c) as [->|[Hc ->]]; [reflexivity|].
  destruct (N.ltb_spec (c + 32)%N 128%N), (N.ltb_spec c 128%N); try reflexivity; lia.
Qed.

Lemma last_map {A B : Type} (f : A -> B) (l : list A) (d : A) :
  last (map f l) (f d) = f (last l d).
Proof.
  induction l as [|a l IH]; [reflexivity|].
  destruct l as [|b l]; [reflexivity|].
  change (last (map f (b :: l)) (f d) = f (last (b :: l) d)). exact IH.
Qed.

Lemma token_shaped_ascii_lower (s : str) :
  token_shaped (map ascii_tolower s) = token_shaped s.
Proof.
  unfold token_shaped. f_equal; [f_equal|].
  - now destruct s.
  - f_equal. induction s as [|c s IH]; simpl; [reflexivity|].
    now rewrite IH, isspace_ascii_tolower.
  - destruct s as [|c s]; [reflexivity|].
    change (negb (char_in (ascii_tolower c) punctuation)
            && negb (char_in (last (map ascii_tolower (c :: s)) (ascii_tolower c))
                       punctuation)
            = negb (char_in c punctuation)
              && negb (char_in (last (c :: s) c) punctuation)).
    now rewrite last_map, !punctuation_ascii_tolower.
Qed.

(** ** Properties of the tokenizer *)

Section TokenizerFacts.

Context {R : PyRuntime}.

Lemma tokenize_as_spec (line : str) : tokenize line = tokenize_spec line.
Proof.
  unfold tokenize, tokenize_spec. induction (split line) as [|p ps IH]; simpl;
    [reflexivity|].
  destruct (truthy (strip punctuation p)); simpl; now rewrite IH.
Qed.

Lemma tokenize_In (line t : str) :
  In t (tokenize line) <->
  exists p, In p (split line) /\ strip punctuation p <> []
            /\ t = lower (strip punctuation p).
Proof.
  unfold tokenize. rewrite in_map_iff. split.
  - intros (p & <- & Hp). apply filter_In in Hp. destruct Hp as [Hp Ht].
    exists p. repeat split; [assumption|]. now apply truthy_nonempty.
  - intros (p & Hp & Hne & ->). exists p. split; [reflexivity|].
    apply filter_In. split; [assumption|]. now apply truthy_nonempty.
Qed.

(** What remains of a piece after stripping, when anything remains, has the
    shape of a token. *)
Lemma strip_piece_shaped (line p : str) :
  In p (split line) -> strip punctuation p <> [] ->
  token_shaped (strip punctuation p) = true.
Proof.
  intros Hp Hne.
  destruct (pieces_In line (split line) (split_pieces line) p Hp) as (_ & Hsp & _).
  destruct (strip_stripped punctuation p) as (a & b & E & _ & _ & Hends).
  unfold token_shaped. rewrite Hends, andb_true_r.
  apply andb_true_intro. split; [now apply truthy_nonempty|].
  apply negb_true_iff. rewrite E, !existsb_app in Hsp.
  apply orb_false_elim in Hsp. destruct Hsp as [_ Hsp].
  apply orb_false_elim in Hsp. now destruct Hsp.
Qed.

Lemma lower_ascii_idem (s : str) :
  is_ascii s = true -> lower (map ascii_tolower s) = map ascii_tolower s.
Proof.
  intros Hs. unfold lower. rewrite is_ascii_tolower, Hs, map_map.
  apply map_ext. intros c. apply ascii_tolower_idem.
Qed.

(** A string with the shape of a token that lowering leaves unchanged is
    tokenized to itself. *)
Lemma tokenize_token (t : str) :
  token_shaped t = true -> lower t = t -> tokenize t = [t].
Proof.
  unfold token_shaped. intros H Hlow.
  apply andb_prop in H. destruct H as [H Hends].
  apply andb_prop in H. destruct H as [Hne Hsp].
  apply truthy_nonempty in Hne. apply negb_true_iff in Hsp.
  unfold tokenize. rewrite (split_run t Hne Hsp). cbn [filter map].
  rewrite (strip_fixed punctuation t Hends).
  rewrite (proj2 (truthy_nonempty t) Hne). cbn [map].
  now rewrite (strip_fixed punctuation t Hends), Hlow.
Qed.

End TokenizerFacts.

Lemma lstrip_all (chars s : str) :
  forallb (fun c => char_in c chars) s = true -> lstrip chars s = [].
Proof.
  intros H. rewrite <- (app_nil_r s). now rewrite lstrip_app_in.
Qed.

(** C2. The tokenizer splits the line into its maximal runs of non-whitespace
    ([pieces], which determines [split]), takes from each run its longest
    prefix and suffix of characters of the punctuation set ([stripped], which
    determines [strip]), drops the runs of which nothing remains, and lowers
    the others, in the order of the line; the punctuation set is the sixteen
    characters listed, and "Hello, world!!" gives "hello" and "world". *)
Theorem tokenize_correct (R : PyRuntime) (line : str) :
  (forall ps, pieces line ps <-> ps = split line)
  /\ (forall piece t, stripped punctuation piece t <-> t = strip punctuation piece)
  /\ punctuation
     = [46; 44; 33; 63; 58; 59; 34; 39; 40; 41; 91; 93; 123; 125; 60; 62]%N
  /\ tokenize line
     = map lower (filter truthy (map (strip punctuation) (split line)))
  /\ tokenize (py "Hello, world!!") = [py "hello"; py "world"].
Proof.
  repeat split.
  - intros H. apply (pieces_unique line); [assumption | apply split_pieces].
  - intros ->. apply split_pieces.
  - apply stripped_unique.
  - intros ->. apply strip_stripped.
  - apply tokenize_as_spec.
Qed.

(** C3, as amended. A line made only of characters of the punctuation set and
    of whitespace has no token; the hyphen is not in the set, and the line
    "---!!!" has the token "---". *)
Theorem tokenize_punctuation_only (R : PyRuntime) (line : str) :
  forallb (fun c => char_in c punctuation || isspace c) line = true ->
  tokenize line = [] /\ tokenize (py "---!!!") = [py "---"].
Proof.
  intros H. split; [|reflexivity]. unfold tokenize.
  rewrite (filter_ext_in _ (fun _ => false)); [now rewrite filter_false|].
  intros p Hp.
  destruct (pieces_In line (split line) (split_pieces line) p Hp) as (_ & Hsp & Hsub).
  unfold strip. rewrite lstrip_all; [reflexivity|].
  apply forallb_forall. intros c Hc.
  rewrite forallb_forall in H. specialize (H c (Hsub c Hc)).
  apply orb_prop in H. destruct H as [H|H]; [assumption|].
  assert (existsb isspace p = true) as E
    by (apply existsb_exists; now exists c).
  congruence.
Qed.

Lemma tokenize_punctuation_only_witness :
  @tokenize ascii_runtime (py "?!  (...) !!!") = []
  /\ @tokenize ascii_runtime (py "---!!!") = [py "---"].
Proof.
  apply (tokenize_punctuation_only ascii_runtime (py "?!  (...) !!!")).
  reflexivity.
Defined.

(** C3, as stated, fails: the hyphen is not in the punctuation set, so the
    line "---!!!" has the token "---" under every runtime. *)
Lemma tokenize_dashes_not_empty :
  ~ exists R : PyRuntime, @tokenize R (py "---!!!") = [].
Proof.
  intros [R H]. vm_compute in H. discriminate.
Qed.

(** Lowering a string with the shape of a token keeps the shape and is not
    undone or continued by lowering again: always for an ASCII string, and for
    any other under a runtime that keeps the shape of tokens. *)
Lemma lower_token (R : PyRuntime) (s : str) :
  token_shaped s = true ->
  is_ascii s = true \/ lower_keeps_tokens R ->
  token_shaped (lower s) = true /\ lower (lower s) = lower s.
Proof.
  intros Hshape H. unfold lower at 1 3 4. destruct (is_ascii s) eqn:Hs.
  - split; [now rewrite token_shaped_ascii_lower | now apply lower_ascii_idem].
  - destruct H as [H|H]; [discriminate|]. now apply H.
Qed.

Lemma is_ascii_app (s t : str) : is_ascii (s ++ t) = is_ascii s && is_ascii t.
Proof. apply forallb_app. Qed.

(** The tokens of an ASCII line are tokenized to themselves under every
    runtime. *)
Lemma ascii_tokens_are_fixed (R : PyRuntime) (line t : str) :
  is_ascii line = true -> In t (tokenize line) -> tokenize t = [t].
Proof.
  intros Hline Ht. apply tokenize_In in Ht. destruct Ht as (p & Hp & Hne & ->).
  pose proof (strip_piece_shaped line p Hp Hne) as Hshape.
  destruct (pieces_In line (split line) (split_pieces line) p Hp) as (_ & _ & Hsub).
  assert (is_ascii p = true) as Hascii.
  { apply forallb_forall. intros c Hc.
    unfold is_ascii in Hline. rewrite forallb_forall in Hline. auto. }
  destruct (strip_stripped punctuation p) as (a & b & E & _).
  rewrite E, !is_ascii_app in Hascii.
  apply andb_prop in Hascii. destruct Hascii as [_ Hascii].
  apply andb_prop in Hascii. destruct Hascii as [Hascii _].
  destruct (lower_token R _ Hshape (or_introl Hascii)) as [H1 H2].
  now apply tokenize_token.
Qed.

Lemma ascii_runtime_keeps_tokens : lower_keeps_tokens ascii_runtime.
Proof.
  intros s Hs Ht. split; [exact Ht|]. unfold lower. simpl. now rewrite Hs.
Qed.

Lemma latin1_tolower_cases (c : char) :
  latin1_tolower c = c
  \/ (((65 <= c <= 90) \/ (192 <= c <= 222))%N /\ latin1_tolower c = (c + 32)%N).
Proof.
  unfold latin1_tolower.
  destruct (((65 <=? c) && (c <=? 90))
            || ((192 <=? c) && (c <=? 222) && negb (c =? 215)))%N eqn:E;
    [|now left].
  right. split; [|reflexivity].
  rewrite orb_true_iff, !andb_true_iff, !N.leb_le in E. lia.
Qed.

Lemma latin1_tolower_idem (c : char) :
  latin1_tolower (latin1_tolower c) = latin1_tolower c.
Proof.
  destruct (latin1_tolower_cases c) as [E|[Hc E]]; [now rewrite !E|rewrite E].
  unfold latin1_tolower.
  destruct (((65 <=? c + 32) && (c + 32 <=? 90))
            || ((192 <=? c + 32) && (c + 32 <=? 222) && negb (c + 32 =? 215)))%N
    eqn:E'; [|reflexivity].
  rewrite orb_true_iff, !andb_true_iff, !N.leb_le in E'. lia.
Qed.

Lemma latin1_tolower_class (c : char) :
  isspace (latin1_tolower c) = isspace c
  /\ char_in (latin1_tolower c) punctuation = char_in c punctuation
  /\ is_ascii_char (latin1_tolower c) = is_ascii_char c.
Proof.
  destruct (latin1_tolower_cases c) as [->|[Hc ->]]; [now repeat split|].
  repeat split.
  - destruct (isspace c) eqn:E1; [apply isspace_range in E1; lia|].
    destruct (isspace (c + 32)%N) eqn:E2;
      [apply isspace_range in E2; lia|reflexivity].
  - destruct (char_in c punctuation) eqn:E1;
      [apply punctuation_range in E1; lia|].
    destruct (char_in (c + 32)%N punctuation) eqn:E2;
      [apply punctuation_range in E2; lia|reflexivity].
  - unfold is_ascii_char.
    destruct (N.ltb_spec (c + 32)%N 128%N), (N.ltb_spec c 128%N);
      try reflexivity; lia.
Qed.

Lemma token_shaped_latin1_lower (s : str) :
  token_shaped (map latin1_tolower s) = token_shaped s.
Proof.
  unfold token_shaped. f_equal; [f_equal|].
  - now destruct s.
  - f_equal. induction s as [|c s IH]; simpl; [reflexivity|].
    rewrite IH. now destruct (latin1_tolower_class c) as [-> _].
  - destruct s as [|c s]; [reflexivity|].
    change (negb (char_in (latin1_tolower c) punctuation)
            && negb (char_in (last (map latin1_tolower (c :: s)) (latin1_tolower c))
                       punctuation)
            = negb (char_in c punctuation)
              && negb (char_in (last (c :: s) c) punctuation)).
    rewrite last_map.
    destruct (latin1_tolower_class c) as (_ & -> & _).
    now destruct (latin1_tolower_class (last (c :: s) c)) as (_ & -> & _).
Qed.

Lemma is_ascii_latin1_lower (s : str) :
  is_ascii (map latin1_tolower s) = is_ascii s.
Proof.
  unfold is_ascii. induction s as [|c s IH]; simpl; [reflexivity|].
  rewrite IH. now destruct (latin1_tolower_class c) as (_ & _ & ->).
Qed.

(** The case mapping of Latin-1 keeps the shape of tokens. *)
Lemma latin1_runtime_keeps_tokens : lower_keeps_tokens latin1_runtime.
Proof.
  intros s Hs Ht. cbn [unicode_lower latin1_runtime]. split.
  - now rewrite token_shaped_latin1_lower.
  - unfold lower. cbn [unicode_lower latin1_runtime].
    rewrite is_ascii_latin1_lower, Hs, map_map.
    apply map_ext. intros c. apply latin1_tolower_idem.
Qed.

(** C9. Under a runtime whose case mapping keeps the shape of tokens, every
    token of a line is tokenized to itself alone; it is free of whitespace,
    has no punctuation at either end, and is left unchanged by lowering. *)
Theorem tokens_are_fixed (R : PyRuntime) (line t : str) :
  lower_keeps_tokens R ->
  In t (tokenize line) ->
  tokenize t = [t] /\ token_shaped t = true /\ lower t = t.
Proof.
  intros HR Ht. apply tokenize_In in Ht. destruct Ht as (p & Hp & Hne & ->).
  pose proof (strip_piece_shaped line p Hp Hne) as Hshape.
  destruct (lower_token R _ Hshape (or_intror HR)) as [H1 H2].
  split; [|now split]. now apply tokenize_token.
Qed.

Lemma tokens_are_fixed_witness :
  @tokenize latin1_runtime [233; 116; 233]%N = [[233; 116; 233]%N]
  /\ token_shaped [233; 116; 233]%N = true
  /\ @lower latin1_runtime [233; 116; 233]%N = [233; 116; 233]%N.
Proof.
  apply (tokens_are_fixed latin1_runtime
           (py "Un (" ++ [201; 84; 201]%N ++ py ")!") [233; 116; 233]%N).
  - exact latin1_runtime_keeps_tokens.
  - right. left. reflexivity.
Defined.

(** ** Facts about the counter *)

Lemma dict_get_set (d : Counter) (k k' : str) (v default : Z) :
  dict_get (dict_set d k v) k' default
  = if str_eqb k k' then v else dict_get d k' default.
Proof.
  induction d as [|[k0 v0] d IH]; simpl.
  - reflexivity.
  - destruct (str_eqb k0 k) eqn:E0; simpl.
    + apply str_eqb_eq in E0. subst k0. now destruct (str_eqb k k').
    + destruct (str_eqb k0 k') eqn:E1; [|exact IH].
      apply str_eqb_eq in E1. subst k0.
      destruct (str_eqb k k') eqn:E2; [|reflexivity].
      apply str_eqb_eq in E2. subst k'. rewrite str_eqb_refl in E0. discriminate.
Qed.

Lemma total_dict_set (d : Counter) (k : str) (v : Z) :
  total (dict_set d k v) = (total d - dict_get d k 0 + v)%Z.
Proof.
  unfold total. induction d as [|[k0 v0] d IH]; simpl.
  - lia.
  - destruct (str_eqb k0 k); simpl; lia.
Qed.

Lemma keys_dict_set (d : Counter) (k : str) (v : Z) (k' : str) :
  In k' (map fst (dict_set d k v)) <-> k' = k \/ In k' (map fst d).
Proof.
  induction d as [|[k0 v0] d IH]; simpl.
  - intuition congruence.
  - destruct (str_eqb k0 k) eqn:E0; simpl.
    + apply str_eqb_eq in E0. subst k0. intuition congruence.
    + rewrite IH. intuition congruence.
Qed.

Lemma NoDup_dict_set (d : Counter) (k : str) (v : Z) :
  NoDup (map fst d) -> NoDup (map fst (dict_set d k v)).
Proof.
  induction d as [|[k0 v0] d IH]; simpl; intros H.
  - constructor; [intros []|constructor].
  - inversion H as [|? ? Hnotin Hd]; subst.
    destruct (str_eqb k0 k) eqn:E0; simpl.
    + now constructor.
    + constructor; [|now apply IH].
      rewrite keys_dict_set. intros [->|Hin]; [|contradiction].
      rewrite str_eqb_refl in E0. discriminate.
Qed.

Lemma dict_get_In (d : Counter) (k : str) (v default : Z) :
  NoDup (map fst d) -> In (k, v) d -> dict_get d k default = v.
Proof.
  induction d as [|[k0 v0] d IH]; simpl; intros Hnd Hin; [contradiction|].
  inversion Hnd as [|? ? Hnotin Hd]; subst.
  destruct Hin as [E|Hin].
  - injection E as -> ->. now rewrite str_eqb_refl.
  - destruct (str_eqb k0 k) eqn:E0; [|now apply IH].
    apply str_eqb_eq in E0. subst k0. contradiction Hnotin.
    apply in_map_iff. now exists (k, v).
Qed.

Lemma occurrences_cons (a : str) (l : list str) (k : str) :
  occurrences (a :: l) k
  = ((if str_eqb a k then 1 else 0) + occurrences l k)%Z.
Proof.
  unfold occurrences, str_eqb. simpl.
  destruct (list_eq_dec N.eq_dec a k); lia.
Qed.

Lemma total_counter_update (iterable : list str) (counter : Counter) :
  total (counter_update counter iterable) = (total counter + len iterable)%Z.
Proof.
  unfold counter_update, len. revert counter.
  induction iterable as [|a l IH]; intros counter; simpl fold_left.
  - simpl. lia.
  - rewrite IH, total_dict_set. simpl List.length. lia.
Qed.

Lemma dict_get_counter_update (iterable : list str) (counter : Counter) (k : str) :
  dict_get (counter_update counter iterable) k 0
  = (dict_get counter k 0 + occurrences iterable k)%Z.
Proof.
  unfold counter_update. revert counter.
  induction iterable as [|a l IH]; intros counter; simpl fold_left.
  - unfold occurrences. simpl. lia.
  - rewrite IH, dict_get_set, occurrences_cons.
    destruct (str_eqb a k) eqn:E; [|lia].
    apply str_eqb_eq in E. subst a. lia.
Qed.

Lemma keys_counter_update (iterable : list str) (counter : Counter) (k : str) :
  In k (map fst (counter_update counter iterable))
  <-> In k (map fst counter) \/ In k iterable.
Proof.
  unfold counter_update. revert counter.
  induction iterable as [|a l IH]; intros counter; simpl fold_left.
  - simpl. intuition.
  - rewrite IH, keys_dict_set. simpl. intuition congruence.
Qed.

Lemma NoDup_counter_update (iterable : list str) (counter : Counter) :
  NoDup (map fst counter) -> NoDup (map fst (counter_update counter iterable)).
Proof.
  unfold counter_update. revert counter.
  induction iterable as [|a l IH]; intros counter H; simpl fold_left.
  - assumption.
  - apply IH. now apply NoDup_dict_set.
Qed.

Lemma occurrences_pos (l : list str) (k : str) :
  In k l <-> (1 <= occurrences l k)%Z.
Proof.
  unfold occurrences. rewrite (count_occ_In (list_eq_dec N.eq_dec)). lia.
Qed.

(** Every item of a counter filled from nothing holds the number of
    occurrences of its key, which is at least one. *)
Lemma counter_update_items (iterable : list str) :
  Forall (fun e => snd e = occurrences iterable (fst e) /\ (1 <= snd e)%Z)
         (counter_update [] iterable).
Proof.
  apply Forall_forall. intros [k v] Hin. simpl.
  assert (NoDup (map fst (counter_update [] iterable))) as Hnd
    by (apply NoDup_counter_update; constructor).
  pose proof (dict_get_In _ k v 0 Hnd Hin) as Hget.
  rewrite dict_get_counter_update in Hget. simpl in Hget.
  assert (In k iterable) as Hk.
  { assert (In k (map fst (counter_update [] iterable))) as H
      by (apply in_map_iff; now exists (k, v)).
    apply keys_counter_update in H. now destruct H. }
  apply occurrences_pos in Hk. lia.
Qed.

(** ** The aggregator in closed form *)

Section AggregatorFacts.

Context {R : PyRuntime}.

Lemma len_app {A : Type} (l l' : list A) : len (l ++ l') = (len l + len l')%Z.
Proof. unfold len. rewrite length_app. lia. Qed.

Lemma total_len_app (l l' : list str) :
  total_len (l ++ l') = (total_len l + total_len l')%Z.
Proof.
  unfold total_len. induction l as [|a l IH]; simpl; [reflexivity|]. lia.
Qed.

Lemma counter_update_app (counter : Counter) (l l' : list str) :
  counter_update counter (l ++ l') = counter_update (counter_update counter l) l'.
Proof. unfold counter_update. apply fold_left_app. Qed.

Lemma yielded_yield_all {A : Type} (l : list A) :
  yielded (yield_all l) = l /\ raised (yield_all l) = None.
Proof.
  induction l as [|a l [IH1 IH2]]; simpl; [now split|]. now rewrite IH1, IH2.
Qed.

(** The loop in closed form: the exception of the line source if it raises
    one, and otherwise the totals over the lines it yields. *)
Lemma text_stats_loop_spec (lines : Gen str) (lc wc cc : Z) (counter : Counter) :
  text_stats_loop lines (lc, wc, cc, counter)
  = match raised lines with
    | Some e => Raise e
    | None =>
        Ok ((lc + len (yielded lines))%Z,
            (wc + len (flat_map tokenize (yielded lines)))%Z,
            (cc + total_len (yielded lines))%Z,
            counter_update counter (flat_map tokenize (yielded lines)))
    end.
Proof.
  revert lc wc cc counter. induction lines as [|line lines IH|e];
    intros lc wc cc counter.
  - simpl. unfold len, total_len. simpl. now rewrite !Z.add_0_r.
  - cbn [text_stats_loop yielded raised flat_map]. rewrite IH.
    destruct (raised lines); [reflexivity|].
    rewrite len_app, counter_update_app.
    replace (len (line :: yielded lines)) with (1 + len (yielded lines))%Z
      by (unfold len; simpl List.length; lia).
    replace (total_len (line :: yielded lines))
      with (len line + total_len (yielded lines))%Z by reflexivity.
    now rewrite !Z.add_assoc.
  - reflexivity.
Qed.

Lemma text_stats_all (lines : list str) :
  text_stats (yield_all lines)
  = Ok (len lines, len (flat_map tokenize lines), total_len lines,
        counter_update [] (flat_map tokenize lines)).
Proof.
  unfold text_stats. rewrite text_stats_loop_spec.
  destruct (yielded_yield_all lines) as [-> ->]. reflexivity.
Qed.

End AggregatorFacts.

(** ** Lines of a text *)

(** Without carriage returns nothing is translated: the lines of a text,
    put end to end, are the text, so that the lengths of the lines add up to
    the length of the text, line terminators included. *)
Lemma readlines_from_concat (text cur : str) :
  existsb (N.eqb 13) text = false ->
  List.concat (readlines_from cur text) = rev cur ++ text.
Proof.
  revert cur. induction text as [|c text IH]; intros cur H.
  - destruct cur; simpl; now rewrite ?app_nil_r.
  - cbn [existsb] in H. apply orb_false_elim in H. destruct H as [Hc H].
    cbn [readlines_from]. destruct (N.eqb_spec c 10) as [->|Hc10].
    + cbn [List.concat]. rewrite (IH [] H). simpl. now rewrite <- app_assoc.
    + rewrite N.eqb_sym in Hc. rewrite Hc. rewrite (IH (c :: cur) H).
      simpl. now rewrite <- app_assoc.
Qed.

Lemma total_len_concat (l : list str) : total_len l = len (List.concat l).
Proof.
  unfold total_len, len. induction l as [|a l IH]; simpl; [reflexivity|].
  rewrite length_app, IH. unfold len. lia.
Qed.

Lemma readlines_total_len (text : str) :
  existsb (N.eqb 13) text = false -> total_len (readlines text) = len text.
Proof.
  intros H. rewrite total_len_concat. unfold readlines.
  now rewrite readlines_from_concat.
Qed.

(** ** Properties of the aggregator *)

(** C1. For every sequence of lines the aggregator returns, and the word
    count it returns is the sum of the counts of the frequency mapping it
    returns. *)
Theorem word_count_is_total (R : PyRuntime) (lines : list str) :
  exists line_count word_count char_count counter,
    text_stats (yield_all lines) = Ok (line_count, word_count, char_count, counter)
    /\ word_count = total counter.
Proof.
  eexists _, _, _, _. split; [apply text_stats_all|].
  rewrite total_counter_update. reflexivity.
Qed.

(** C6. For every sequence of lines the line count is the number of lines
    and the character count is the sum of their full lengths; one more line
    adds one to the former and its length to the latter. *)
Theorem char_count_is_total_len (R : PyRuntime) (lines : list str) (line : str) :
  exists word_count counter word_count' counter',
    text_stats (yield_all lines)
    = Ok (len lines, word_count, total_len lines, counter)
    /\ text_stats (yield_all (lines ++ [line]))
       = Ok ((len lines + 1)%Z, word_count',
             (total_len lines + len line)%Z, counter').
Proof.
  eexists _, _, _, _. split; [apply text_stats_all|].
  rewrite text_stats_all, len_app, total_len_app.
  unfold total_len at 2. simpl. rewrite Z.add_0_r. reflexivity.
Qed.

(** C10. For every sequence of lines, the keys of the frequency mapping are
    distinct and are exactly the tokens of the lines, and every count is the
    number of occurrences of its key among these tokens, which is at least
    one. *)
Theorem counter_counts_tokens (R : PyRuntime) (lines : list str) :
  exists line_count word_count char_count counter,
    text_stats (yield_all lines) = Ok (line_count, word_count, char_count, counter)
    /\ Forall (fun e => (1 <= snd e)%Z) counter
    /\ Forall (fun e => snd e = occurrences (flat_map tokenize lines) (fst e)) counter
    /\ NoDup (map fst counter)
    /\ forall k, In k (map fst counter)
                 <-> exists line, In line lines /\ In k (tokenize line).
Proof.
  eexists _, _, _, _. split; [apply text_stats_all|].
  pose proof (counter_update_items (flat_map tokenize lines)) as H.
  repeat split.
  - eapply Forall_impl; [|exact H]. now intros e [_ He].
  - eapply Forall_impl; [|exact H]. now intros e [He _].
  - apply NoDup_counter_update. constructor.
  - intros Hk. apply keys_counter_update in Hk. destruct Hk as [[]|Hk].
    now apply in_flat_map in Hk.
  - intros Hk. apply keys_counter_update. right. now apply in_flat_map.
Qed.

(** C4, as amended. The text "the cat sat on the mat\nthe cat ran\n" has 2
    lines, 9 words and 35 characters; its most common words are "the", 3
    times, and then "cat", twice. *)
Theorem cat_text_stats (R : PyRuntime) :
  exists counter,
    text_stats (yield_all (readlines cat_text)) = Ok (2%Z, 9%Z, 35%Z, counter)
    /\ counter = [(py "the", 3%Z); (py "cat", 2%Z); (py "sat", 1%Z);
                  (py "on", 1%Z); (py "mat", 1%Z); (py "ran", 1%Z)]
    /\ most_common 2 counter = [(py "the", 3%Z); (py "cat", 2%Z)].
Proof.
  eexists. split; [reflexivity|]. split; reflexivity.
Qed.

(** C4, as stated, fails: under no runtime is the word count of that text 8. *)
Lemma cat_text_not_8_words :
  ~ exists (R : PyRuntime) (line_count char_count : Z) (counter : Counter),
      @text_stats R (yield_all (readlines cat_text))
      = Ok (line_count, 8%Z, char_count, counter).
Proof.
  intros (R & lc & cc & counter & H). vm_compute in H. discriminate.
Qed.

(** ** The ranking *)

Lemma insert_by_count_perm (e : str * Z) (l : list (str * Z)) :
  Permutation (insert_by_count e l) (e :: l).
Proof.
  induction l as [|x l IH]; simpl; [reflexivity|].
  destruct (snd x <=? snd e)%Z; [reflexivity|].
  rewrite IH. apply perm_swap.
Qed.

Lemma sorted_by_count_perm (items : list (str * Z)) :
  Permutation (sorted_by_count items) items.
Proof.
  induction items as [|e items IH]; simpl; [reflexivity|].
  rewrite insert_by_count_perm. now constructor.
Qed.

Lemma insert_by_count_sorted (e : str * Z) (l : list (str * Z)) :
  StronglySorted count_ge l -> StronglySorted count_ge (insert_by_count e l).
Proof.
  induction l as [|x l IH]; intros H; simpl.
  - constructor; constructor.
  - inversion H as [|? ? Hl Hx]; subst.
    destruct (Z.leb_spec (snd x) (snd e)) as [Hle|Hlt].
    + constructor; [assumption|]. constructor; [exact Hle|].
      eapply Forall_impl; [|exact Hx]. unfold count_ge. intros y Hy. lia.
    + constructor; [now apply IH|].
      apply Forall_forall. intros y Hy.
      apply (Permutation_in _ (insert_by_count_perm e l)) in Hy.
      destruct Hy as [<-|Hy].
      * unfold count_ge. lia.
      * rewrite Forall_forall in Hx. now apply Hx.
Qed.

Lemma sorted_by_count_sorted (items : list (str * Z)) :
  StronglySorted count_ge (sorted_by_count items).
Proof.
  induction items as [|e items IH]; simpl; [constructor|].
  now apply insert_by_count_sorted.
Qed.

(** An inserted item never passes an item of the same count. *)
Lemma insert_by_count_stable (n : Z) (e : str * Z) (l : list (str * Z)) :
  with_count n (insert_by_count e l) = with_count n (e :: l).
Proof.
  unfold with_count. induction l as [|x l IH]; [reflexivity|].
  cbn [insert_by_count]. destruct (Z.leb_spec (snd x) (snd e)) as [Hle|Hlt];
    [reflexivity|].
  cbn [filter] in *. rewrite IH.
  destruct (Z.eqb_spec (snd x) n), (Z.eqb_spec (snd e) n); try reflexivity. lia.
Qed.

(** The sort is stable: items of one count keep their order. *)
Lemma sorted_by_count_stable (n : Z) (items : list (str * Z)) :
  with_count n (sorted_by_count items) = with_count n items.
Proof.
  induction items as [|e items IH]; [reflexivity|].
  cbn [sorted_by_count]. rewrite insert_by_count_stable.
  unfold with_count in *. cbn [filter]. now rewrite IH.
Qed.

Lemma most_common_length (n : Z) (counter : Counter) :
  List.length (most_common n counter) = Nat.min (Z.to_nat n) (List.length counter).
Proof.
  unfold most_common. rewrite length_firstn.
  now rewrite (Permutation_length (sorted_by_count_perm counter)).
Qed.

(** ** Properties of the reporter and the entry point *)

Section ReporterFacts.

Context {R : PyRuntime}.

Lemma fold_left_print (items : list (str * Z)) (stdout : list str) :
  fold_left
    (fun stdout '(word, cnt) =>
       print (py "  " ++ repr word ++ py ": " ++ str_of_int cnt) stdout)
    items stdout
  = stdout ++ map entry_line items.
Proof.
  revert stdout. induction items as [|[word cnt] items IH]; intros stdout.
  - simpl. now rewrite app_nil_r.
  - cbn [fold_left map]. rewrite IH. unfold print. now rewrite <- app_assoc.
Qed.

(** What [print_stats] prints: the three totals, the header, and one line
    for each of the five most common items. *)
Lemma print_stats_spec (line_count word_count char_count : Z) (counter : Counter)
    (stdout : list str) :
  print_stats line_count word_count char_count counter stdout
  = stdout
    ++ [py "Lines: " ++ str_of_int line_count;
        py "Words: " ++ str_of_int word_count;
        py "Characters: " ++ str_of_int char_count;
        py "Top 5 words:"]
    ++ map entry_line (most_common 5 counter).
Proof.
  unfold print_stats. rewrite fold_left_print. unfold print.
  rewrite <- !app_assoc. reflexivity.
Qed.

(** [main] when the parser accepts the command line with a path. *)
Lemma main_with_path (argv : option (list str)) (w : World) (stdout : list str)
    (p : str) :
  parse_args (match argv with None => tl (sys_argv w) | Some a => a end)
  = (Ok {| path := Some p |}, []) ->
  truthy p = true ->
  main argv w stdout
  = match text_stats (read_lines_from_file w p) with
    | Raise e => (Raise e, stdout)
    | Ok (line_count, word_count, char_count, counter) =>
        (Ok 0%Z, print_stats line_count word_count char_count counter stdout)
    end.
Proof.
  intros Hargs Hp. unfold main. rewrite Hargs, app_nil_r. cbn [path].
  now rewrite Hp.
Qed.

(** [main] when the parser accepts the command line without a path, or with
    the empty string as its path. *)
Lemma main_without_path (argv : option (list str)) (w : World) (stdout : list str)
    (args : Namespace) :
  parse_args (match argv with None => tl (sys_argv w) | Some a => a end)
  = (Ok args, []) ->
  path args = None \/ path args = Some [] ->
  main argv w stdout
  = let stdout := if stdin_isatty w then print stdin_prompt stdout else stdout in
    match text_stats (read_lines_from_stdin w) with
    | Raise e => (Raise e, stdout)
    | Ok (line_count, word_count, char_count, counter) =>
        (Ok 0%Z, print_stats line_count word_count char_count counter stdout)
    end.
Proof.
  intros Hargs Hp. unfold main. rewrite Hargs, app_nil_r.
  now destruct Hp as [-> | ->].
Qed.

End ReporterFacts.

(** C7. The reporter prints, after the four head lines, one line for each of
    the first five items of the frequency mapping ranked by decreasing count,
    items of equal count in the order of the mapping: as many as the mapping
    has items when it has fewer than five, and none when it is empty. *)
Theorem report_ranks_top_five (R : PyRuntime)
    (line_count word_count char_count : Z) (counter : Counter) :
  exists entries rest,
    print_stats line_count word_count char_count counter []
    = report_head line_count word_count char_count ++ map entry_line entries
    /\ List.length entries = Nat.min 5 (List.length counter)
    /\ Permutation (entries ++ rest) counter
    /\ StronglySorted count_ge (entries ++ rest)
    /\ (forall n, with_count n (entries ++ rest) = with_count n counter)
    /\ print_stats line_count word_count char_count [] []
       = report_head line_count word_count char_count.
Proof.
  exists (most_common 5 counter), (skipn 5 (sorted_by_count counter)).
  unfold most_common at 3 4 5. change (Z.to_nat 5) with 5%nat.
  rewrite firstn_skipn. repeat split.
  - now rewrite print_stats_spec.
  - apply most_common_length.
  - apply sorted_by_count_perm.
  - apply sorted_by_count_sorted.
  - intros n. apply sorted_by_count_stable.
Qed.

(** C5. Empty input is a valid run: the aggregator returns zero counts and an
    empty mapping, the reporter prints the three zero totals and the header
    and nothing after it, and the program run on an empty file, or on an empty
    standard input that is not a terminal, prints just that and exits with
    status 0. *)
Theorem empty_input_is_valid (R : PyRuntime) :
  text_stats (yield_all []) = Ok (0%Z, 0%Z, 0%Z, [])
  /\ readlines [] = []
  /\ print_stats 0 0 0 [] []
     = [py "Lines: 0"; py "Words: 0"; py "Characters: 0"; py "Top 5 words:"]
  /\ (forall w p,
        parse_args (tl (sys_argv w)) = (Ok {| path := Some p |}, []) ->
        truthy p = true ->
        open_file w p = Ok [] ->
        run w = (0%Z, [py "Lines: 0"; py "Words: 0"; py "Characters: 0";
                       py "Top 5 words:"]))
  /\ (forall w,
        parse_args (tl (sys_argv w)) = (Ok {| path := None |}, []) ->
        stdin_lines w = Stop ->
        stdin_isatty w = false ->
        run w = (0%Z, [py "Lines: 0"; py "Words: 0"; py "Characters: 0";
                       py "Top 5 words:"])).
Proof.
  repeat split.
  - intros w p Hargs Hp Hopen. unfold run.
    rewrite (main_with_path None w [] p Hargs Hp).
    unfold read_lines_from_file. rewrite Hopen. reflexivity.
  - intros w Hargs Hin Htty. unfold run.
    rewrite (main_without_path None w [] _ Hargs (or_introl eq_refl)).
    unfold read_lines_from_stdin. rewrite Hin, Htty. reflexivity.
Qed.

Lemma empty_input_is_valid_witness :
  @run ascii_runtime empty_file_world
  = (0%Z, [py "Lines: 0"; py "Words: 0"; py "Characters: 0"; py "Top 5 words:"])
  /\ @run ascii_runtime empty_stdin_world
     = (0%Z, [py "Lines: 0"; py "Words: 0"; py "Characters: 0"; py "Top 5 words:"]).
Proof.
  destruct (empty_input_is_valid ascii_runtime) as (_ & _ & _ & Hfile & Hstdin).
  split.
  - apply (Hfile empty_file_world (py "empty.txt")); reflexivity.
  - apply (Hstdin empty_stdin_world); reflexivity.
Defined.

(** C8, as amended. Run with a path argument that is not the empty string
    and names a file that [open] cannot open, the entry point raises the
    [OSError] of [open] and prints nothing, and the program ends with exit
    status 1, which is not zero, and an empty standard output. *)
Theorem missing_file_fails (R : PyRuntime) (w : World) (p : str)
    (errno : Z) (filename : str) :
  parse_args (tl (sys_argv w)) = (Ok {| path := Some p |}, []) ->
  truthy p = true ->
  open_file w p = Raise (OSError errno filename) ->
  main None w [] = (Raise (OSError errno filename), [])
  /\ run w = (1%Z, [])
  /\ fst (run w) <> 0%Z.
Proof.
  intros Hargs Hp Hopen.
  assert (main None w [] = (Raise (OSError errno filename), [])) as Hmain.
  { rewrite (main_with_path None w [] p Hargs Hp).
    unfold read_lines_from_file. now rewrite Hopen. }
  unfold run. rewrite Hmain. repeat split. discriminate.
Qed.

Lemma missing_file_fails_witness :
  @main ascii_runtime None missing_file_world []
  = (Raise (OSError 2 (py "missing.txt")), [])
  /\ @run ascii_runtime missing_file_world = (1%Z, [])
  /\ fst (@run ascii_runtime missing_file_world) <> 0%Z.
Proof.
  apply (missing_file_fails ascii_runtime missing_file_world (py "missing.txt")
           2 (py "missing.txt")); reflexivity.
Defined.

Lemma yield_from_same {A : Type} (it : Gen A) : yield_from it = it.
Proof.
  induction it as [|a rest IH|e]; simpl; [reflexivity | now rewrite IH | reflexivity].
Qed.

(** An empty string given as the path is no path to [main]: standard input
    is read, and when it ends well its report is printed and [main] returns
    0. *)
Lemma empty_path_reads_stdin (R : PyRuntime) (w : World) :
  parse_args (tl (sys_argv w)) = (Ok {| path := Some [] |}, []) ->
  stdin_isatty w = false ->
  raised (stdin_lines w) = None ->
  exists line_count word_count char_count counter,
    run w = (0%Z, print_stats line_count word_count char_count counter [])
    /\ text_stats (read_lines_from_stdin w)
       = Ok (line_count, word_count, char_count, counter).
Proof.
  intros Hargs Htty Hend. unfold run.
  rewrite (main_without_path None w [] _ Hargs (or_intror eq_refl)).
  unfold read_lines_from_stdin. rewrite Htty, yield_from_same. cbv zeta.
  unfold text_stats. rewrite text_stats_loop_spec, Hend.
  eexists _, _, _, _. split; reflexivity.
Qed.

(** C8, as stated, fails.  The empty string is a path argument that names no
    file that can be opened, yet [main] takes it for no path: run with it,
    the program reads standard input, prints the statistics and ends with
    status 0. *)
Lemma empty_path_argument_succeeds :
  @parse_args ascii_runtime (tl (sys_argv empty_path_world))
  = (Ok {| path := Some [] |}, [])
  /\ open_file empty_path_world [] = Raise (OSError 2 [])
  /\ @run ascii_runtime empty_path_world
     = (0%Z, [py "Lines: 1"; py "Words: 2"; py "Characters: 4";
              py "Top 5 words:"; py "  'a': 1"; py "  'b': 1"]).
Proof. repeat split. Qed.

(** * Further properties *)

(** ** The tokenizer and whitespace *)

Lemma split_from_app_space (a b cur : str) (c : char) :
  isspace c = true ->
  split_from cur (a ++ c :: b) = split_from cur a ++ split b.
Proof.
  intros Hc. revert cur. induction a as [|x a IH]; intros cur.
  - simpl. rewrite Hc. now destruct cur.
  - cbn [app split_from]. destruct (isspace x).
    + destruct cur; [apply IH|]. rewrite IH. reflexivity.
    + apply IH.
Qed.

Lemma split_lead_space (ws s : str) :
  forallb isspace ws = true -> split (ws ++ s) = split s.
Proof.
  intros H. induction ws as [|c ws IH]; [reflexivity|].
  simpl in H. apply andb_prop in H. destruct H as [Hc H].
  unfold split in *. cbn [app split_from]. rewrite Hc. now apply IH.
Qed.

Lemma split_trail_space (ws s : str) :
  forallb isspace ws = true -> split (s ++ ws) = split s.
Proof.
  intros H. destruct ws as [|c ws]; [now rewrite app_nil_r|].
  simpl in H. apply andb_prop in H. destruct H as [Hc H].
  unfold split. rewrite (split_from_app_space s ws [] c Hc).
  rewrite <- (app_nil_r ws), (split_lead_space ws [] H).
  apply app_nil_r.
Qed.

(** X5. Whitespace separates: the tokens of two texts joined by a whitespace
    character are the tokens of the first followed by those of the second. *)
Theorem tokenize_app_space (R : PyRuntime) (a b : str) (c : char) :
  isspace c = true ->
  tokenize (a ++ c :: b) = tokenize a ++ tokenize b.
Proof.
  intros Hc. unfold tokenize, split.
  now rewrite (split_from_app_space a b [] c Hc), filter_app, map_app.
Qed.

Lemma tokenize_app_space_witness :
  @tokenize ascii_runtime (py "The cat," ++ 9%N :: py "(sat)")
  = @tokenize ascii_runtime (py "The cat,") ++ @tokenize ascii_runtime (py "(sat)").
Proof.
  apply (tokenize_app_space ascii_runtime (py "The cat,") (py "(sat)") 9%N).
  reflexivity.
Defined.

(** X6. Whitespace around a line, such as the line terminator a file gives,
    leaves its tokens as they are. *)
Theorem tokenize_ignores_padding (R : PyRuntime) (before line after : str) :
  forallb isspace before = true ->
  forallb isspace after = true ->
  tokenize (before ++ line ++ after) = tokenize line.
Proof.
  intros Hb Ha. unfold tokenize.
  now rewrite (split_lead_space before _ Hb), (split_trail_space after _ Ha).
Qed.

Lemma tokenize_ignores_padding_witness :
  @tokenize ascii_runtime (py "  " ++ py "the cat" ++ [13; 10]%N)
  = @tokenize ascii_runtime (py "the cat").
Proof.
  apply (tokenize_ignores_padding ascii_runtime (py "  ") (py "the cat") [13; 10]%N);
    reflexivity.
Defined.

(** X7. A string without whitespace that neither starts nor ends with a
    punctuation character is one token, its lower case: punctuation inside a
    word is kept. *)
Theorem tokenize_keeps_inner_punctuation (R : PyRuntime) (t : str) :
  token_shaped t = true -> tokenize t = [lower t].
Proof.
  unfold token_shaped. intros H.
  apply andb_prop in H. destruct H as [H Hends].
  apply andb_prop in H. destruct H as [Hne Hsp].
  apply truthy_nonempty in Hne. apply negb_true_iff in Hsp.
  unfold tokenize. rewrite (split_run t Hne Hsp). cbn [filter map].
  rewrite (strip_fixed punctuation t Hends).
  rewrite (proj2 (truthy_nonempty t) Hne). cbn [map].
  now rewrite (strip_fixed punctuation t Hends).
Qed.

Lemma tokenize_keeps_inner_punctuation_witness :
  @tokenize ascii_runtime (py "Don't-Panic.txt")
  = [@lower ascii_runtime (py "Don't-Panic.txt")].
Proof.
  apply (tokenize_keeps_inner_punctuation ascii_runtime (py "Don't-Panic.txt")).
  reflexivity.
Defined.

(** ** The tokenizer and letter case *)

Lemma split_from_ascii_tolower (s cur : str) :
  split_from (map ascii_tolower cur) (map ascii_tolower s)
  = map (map ascii_tolower) (split_from cur s).
Proof.
  revert cur. induction s as [|c s IH]; intros cur.
  - destruct cur as [|d cur]; [reflexivity|].
    cbn [map split_from]. now rewrite (map_rev ascii_tolower (d :: cur)).
  - pose proof (IH []) as IH0. cbn [map] in IH0.
    cbn [map split_from]. rewrite isspace_ascii_tolower.
    destruct (isspace c).
    + destruct cur as [|d cur]; [exact IH0|].
      cbn [map]. rewrite IH0.
      now rewrite (map_rev ascii_tolower (d :: cur)).
    + apply (IH (c :: cur)).
Qed.

Lemma lstrip_ascii_tolower (s : str) :
  lstrip punctuation (map ascii_tolower s)
  = map ascii_tolower (lstrip punctuation s).
Proof.
  induction s as [|c s IH]; [reflexivity|].
  cbn [map lstrip]. rewrite punctuation_ascii_tolower.
  now destruct (char_in c punctuation).
Qed.

Lemma rstrip_ascii_tolower (s : str) :
  rstrip punctuation (map ascii_tolower s)
  = map ascii_tolower (rstrip punctuation s).
Proof.
  induction s as [|c s IH]; [reflexivity|].
  cbn [map rstrip]. rewrite IH, punctuation_ascii_tolower.
  destruct (rstrip punctuation s); [|reflexivity].
  now destruct (char_in c punctuation).
Qed.

Lemma strip_ascii_tolower (s : str) :
  strip punctuation (map ascii_tolower s)
  = map ascii_tolower (strip punctuation s).
Proof. unfold strip. now rewrite lstrip_ascii_tolower, rstrip_ascii_tolower. Qed.

Lemma is_ascii_strip (p : str) :
  is_ascii p = true -> is_ascii (strip punctuation p) = true.
Proof.
  intros H. destruct (strip_stripped punctuation p) as (a & b & E & _).
  rewrite E, !is_ascii_app in H.
  apply andb_prop in H. destruct H as [_ H].
  apply andb_prop in H. now destruct H.
Qed.

Lemma is_ascii_piece (line p : str) :
  is_ascii line = true -> In p (split line) -> is_ascii p = true.
Proof.
  intros Hline Hp.
  destruct (pieces_In line (split line) (split_pieces line) p Hp) as (_ & _ & Hsub).
  apply forallb_forall. intros c Hc.
  unfold is_ascii in Hline. rewrite forallb_forall in Hline. auto.
Qed.

(** X8. The tokenizer does not see the case of ASCII letters: an ASCII line
    and its lower case have the same tokens. *)
Theorem tokenize_ignores_case (R : PyRuntime) (line : str) :
  is_ascii line = true ->
  tokenize (lower line) = tokenize line.
Proof.
  intros Hline. unfold lower at 1. rewrite Hline. unfold tokenize, split.
  pose proof (split_from_ascii_tolower line []) as Hsplit. cbn [map] in Hsplit.
  rewrite Hsplit, filter_map_swap, map_map.
  erewrite filter_ext_in.
  - apply map_ext_in. intros p Hp. apply filter_In in Hp. destruct Hp as [Hp _].
    assert (is_ascii (strip punctuation p) = true) as Hs
      by (apply is_ascii_strip, (is_ascii_piece line); assumption).
    rewrite strip_ascii_tolower, (lower_ascii_idem _ Hs).
    unfold lower. now rewrite Hs.
  - intros p Hp. cbv beta. rewrite strip_ascii_tolower.
    now destruct (strip punctuation p).
Qed.

Lemma tokenize_ignores_case_witness :
  @tokenize ascii_runtime (@lower ascii_runtime (py "The CAT sat; THE End."))
  = @tokenize ascii_runtime (py "The CAT sat; THE End.").
Proof.
  apply (tokenize_ignores_case ascii_runtime (py "The CAT sat; THE End.")).
  reflexivity.
Defined.

(** Every token has the shape of a token and is its own lower case, for an
    ASCII line and, under a runtime that keeps the shape of tokens, for any
    line. *)
Lemma tokens_shaped (R : PyRuntime) (line : str) :
  is_ascii line = true \/ lower_keeps_tokens R ->
  Forall (fun t => token_shaped t = true /\ lower t = t) (tokenize line).
Proof.
  intros H. apply Forall_forall. intros t Ht.
  apply tokenize_In in Ht. destruct Ht as (p & Hp & Hne & ->).
  pose proof (strip_piece_shaped line p Hp Hne) as Hshape.
  apply lower_token; [assumption|].
  destruct H as [H|H]; [left|now right].
  now apply is_ascii_strip, (is_ascii_piece line).
Qed.

Lemma tokenize_join (R : PyRuntime) (ts : list str) :
  Forall (fun t => token_shaped t = true /\ lower t = t) ts ->
  tokenize (join [32%N] ts) = ts.
Proof.
  induction 1 as [|t ts [Ht Hlow] Hts IH]; [reflexivity|].
  destruct ts as [|u ts].
  - now apply tokenize_token.
  - change (join [32%N] (t :: u :: ts)) with (t ++ 32%N :: join [32%N] (u :: ts)).
    assert (tokenize (t ++ 32%N :: join [32%N] (u :: ts))
            = tokenize t ++ tokenize (join [32%N] (u :: ts))) as E.
    { unfold tokenize, split.
      now rewrite (split_from_app_space t _ [] 32%N eq_refl), filter_app, map_app. }
    now rewrite E, IH, (tokenize_token t Ht Hlow).
Qed.

(** X9. Tokenizing is a projection: the tokens of a line, joined by single
    spaces and tokenized again, are the same tokens.  This holds for an ASCII
    line under any runtime, and for every line under a runtime whose case
    mapping keeps the shape of tokens. *)
Theorem tokenize_join_tokens (R : PyRuntime) (line : str) :
  is_ascii line = true \/ lower_keeps_tokens R ->
  tokenize (join [32%N] (tokenize line)) = tokenize line.
Proof.
  intros H. apply tokenize_join. now apply tokens_shaped.
Qed.

Lemma tokenize_join_tokens_witness :
  @tokenize latin1_runtime
    (join [32%N] (@tokenize latin1_runtime (py "(Un)  " ++ [201; 84; 201]%N ++ py "!!")))
  = @tokenize latin1_runtime (py "(Un)  " ++ [201; 84; 201]%N ++ py "!!").
Proof.
  apply (tokenize_join_tokens latin1_runtime).
  right. exact latin1_runtime_keeps_tokens.
Defined.

(** ** The aggregator over any line source *)

(** X1. [text_stats] raises the exception its line source ends with, whatever
    it has counted before; from a source that ends well it returns the number
    of lines yielded, the number of their tokens, the sum of their lengths,
    and the counter of their tokens. *)
Theorem text_stats_of_source (R : PyRuntime) (lines : Gen str) :
  text_stats lines
  = match raised lines with
    | Some e => Raise e
    | None =>
        Ok (len (yielded lines),
            len (flat_map tokenize (yielded lines)),
            total_len (yielded lines),
            counter_update [] (flat_map tokenize (yielded lines)))
    end.
Proof.
  unfold text_stats. rewrite text_stats_loop_spec.
  now destruct (raised lines).
Qed.

(** X2. The statistics of two sequences of lines read one after the other are
    the sums of their statistics: line, word and character counts add, and so
    does the count of every key. *)
Theorem text_stats_app (R : PyRuntime) (lines1 lines2 : list str) :
  exists lc1 wc1 cc1 c1 lc2 wc2 cc2 c2 c,
    text_stats (yield_all lines1) = Ok (lc1, wc1, cc1, c1)
    /\ text_stats (yield_all lines2) = Ok (lc2, wc2, cc2, c2)
    /\ text_stats (yield_all (lines1 ++ lines2))
       = Ok ((lc1 + lc2)%Z, (wc1 + wc2)%Z, (cc1 + cc2)%Z, c)
    /\ forall k, dict_get c k 0 = (dict_get c1 k 0 + dict_get c2 k 0)%Z.
Proof.
  eexists _, _, _, _, _, _, _, _, _.
  split; [apply text_stats_all|]. split; [apply text_stats_all|].
  split.
  - rewrite text_stats_all, flat_map_app, !len_app, total_len_app. reflexivity.
  - intros k. rewrite !dict_get_counter_update. cbn [dict_get].
    unfold occurrences. now rewrite count_occ_app, Nat2Z.inj_add, !Z.add_0_l.
Qed.

Lemma total_len_perm (l l' : list str) :
  Permutation l l' -> total_len l = total_len l'.
Proof.
  unfold total_len. induction 1; simpl; lia.
Qed.

(** X3. The counts do not depend on the order of the lines: two sequences
    with the same lines in another order have the same line, word and
    character counts and the same count for every key. *)
Theorem text_stats_perm (R : PyRuntime) (lines lines' : list str) :
  Permutation lines lines' ->
  exists lc wc cc c c',
    text_stats (yield_all lines) = Ok (lc, wc, cc, c)
    /\ text_stats (yield_all lines') = Ok (lc, wc, cc, c')
    /\ forall k, dict_get c k 0 = dict_get c' k 0.
Proof.
  intros H.
  assert (Permutation (flat_map tokenize lines) (flat_map tokenize lines')) as Hf
    by (now rewrite H).
  pose proof (@Permutation_length _ _ _ H) as E1.
  pose proof (@Permutation_length _ _ _ Hf) as E2.
  eexists _, _, _, _, _.
  split; [apply text_stats_all|]. split.
  - rewrite text_stats_all. unfold len.
    rewrite <- E1, <- E2, <- (total_len_perm lines lines' H). reflexivity.
  - intros k. rewrite !dict_get_counter_update. unfold occurrences.
    now rewrite (proj1 (Permutation_count_occ (list_eq_dec N.eq_dec) _ _) Hf k).
Qed.

Lemma text_stats_perm_witness :
  exists lc wc cc c c',
    @text_stats ascii_runtime (yield_all [py "a b"; py "b c"]) = Ok (lc, wc, cc, c)
    /\ @text_stats ascii_runtime (yield_all [py "b c"; py "a b"]) = Ok (lc, wc, cc, c')
    /\ forall k, dict_get c k 0 = dict_get c' k 0.
Proof.
  apply (text_stats_perm ascii_runtime [py "a b"; py "b c"] [py "b c"; py "a b"]).
  apply perm_swap.
Defined.

(** ** The order of the counter *)

Lemma str_eqb_sym (s t : str) : str_eqb s t = str_eqb t s.
Proof.
  destruct (str_eqb t s) eqn:E.
  - apply str_eqb_eq in E. subst. apply str_eqb_refl.
  - apply str_eqb_neq in E. apply str_eqb_neq. congruence.
Qed.

Lemma keys_dict_set_order (d : Counter) (k : str) (v : Z) :
  map fst (dict_set d k v)
  = if existsb (str_eqb k) (map fst d) then map fst d else map fst d ++ [k].
Proof.
  induction d as [|[k0 v0] d IH]; [reflexivity|].
  cbn [dict_set map fst existsb]. rewrite (str_eqb_sym k k0).
  destruct (str_eqb k0 k); [reflexivity|].
  cbn [map fst orb]. rewrite IH.
  now destruct (existsb (str_eqb k) (map fst d)).
Qed.

Lemma first_seen_ext (l seen seen' : list str) :
  (forall x, existsb (str_eqb x) seen = existsb (str_eqb x) seen') ->
  first_seen seen l = first_seen seen' l.
Proof.
  revert seen seen'. induction l as [|a l IH]; intros seen seen' H;
    [reflexivity|].
  cbn [first_seen]. rewrite <- (H a).
  destruct (existsb (str_eqb a) seen); [now apply IH|].
  f_equal. apply IH. intros x. cbn [existsb]. now rewrite H.
Qed.

Lemma keys_counter_update_order (iterable : list str) (counter : Counter) :
  map fst (counter_update counter iterable)
  = map fst counter ++ first_seen (map fst counter) iterable.
Proof.
  unfold counter_update. revert counter.
  induction iterable as [|a l IH]; intros counter; cbn [fold_left first_seen].
  - now rewrite app_nil_r.
  - rewrite IH, keys_dict_set_order.
    destruct (existsb (str_eqb a) (map fst counter)); [reflexivity|].
    rewrite <- app_assoc. cbn [app]. do 2 f_equal.
    apply first_seen_ext. intros x. rewrite existsb_app. cbn [existsb].
    rewrite orb_false_r. apply orb_comm.
Qed.

(** X4. The keys of the counter are the tokens of the lines in the order in
    which each token is first met; with the stable ranking, this is the order
    in which words of equal count are reported. *)
Theorem counter_keys_first_seen (R : PyRuntime) (lines : list str) :
  exists line_count word_count char_count counter,
    text_stats (yield_all lines) = Ok (line_count, word_count, char_count, counter)
    /\ map fst counter = first_seen [] (flat_map tokenize lines)
    /\ forall n, map fst (with_count n (sorted_by_count counter))
                 = map fst (with_count n counter).
Proof.
  eexists _, _, _, _. split; [apply text_stats_all|]. split.
  - apply (keys_counter_update_order _ []).
  - intros n. now rewrite sorted_by_count_stable.
Qed.

(** ** Bounds *)

Lemma split_from_length (s cur : str) :
  (List.length (split_from cur s)
   <= List.length s + match cur with [] => 0 | _ :: _ => 1 end)%nat.
Proof.
  revert cur. induction s as [|c s IH]; intros cur.
  - destruct cur; simpl; lia.
  - cbn [split_from List.length]. destruct (isspace c).
    + specialize (IH []). destruct cur; simpl in *; lia.
    + specialize (IH (c :: cur)). destruct cur; simpl in *; lia.
Qed.

Lemma tokenize_length (R : PyRuntime) (line : str) :
  (len (tokenize line) <= len line)%Z.
Proof.
  unfold len, tokenize. rewrite length_map.
  pose proof (filter_length_le (fun token => truthy (strip punctuation token))
                (split line)) as H1.
  pose proof (split_from_length line []) as H2. unfold split in *. simpl in H2.
  lia.
Qed.

Lemma dict_set_length (d : Counter) (k : str) (v : Z) :
  (List.length (dict_set d k v) <= S (List.length d))%nat.
Proof.
  induction d as [|[k0 v0] d IH]; simpl; [lia|].
  destruct (str_eqb k0 k); simpl; lia.
Qed.

Lemma counter_update_length (iterable : list str) (counter : Counter) :
  (len (counter_update counter iterable) <= len counter + len iterable)%Z.
Proof.
  unfold counter_update, len. revert counter.
  induction iterable as [|a l IH]; intros counter; cbn [fold_left List.length].
  - lia.
  - specialize (IH (dict_set counter a (dict_get counter a 0 + 1))).
    pose proof (dict_set_length counter a (dict_get counter a 0 + 1)). lia.
Qed.

(** X10. For every sequence of lines, the number of distinct words is at most
    the word count, which is at most the character count; none is negative. *)
Theorem text_stats_bounds (R : PyRuntime) (lines : list str) :
  exists line_count word_count char_count counter,
    text_stats (yield_all lines) = Ok (line_count, word_count, char_count, counter)
    /\ (0 <= line_count)%Z
    /\ (0 <= len counter <= word_count)%Z
    /\ (word_count <= char_count)%Z.
Proof.
  eexists _, _, _, _. split; [apply text_stats_all|]. repeat split.
  - unfold len. lia.
  - unfold len. lia.
  - pose proof (counter_update_length (flat_map tokenize lines) []) as H.
    unfold len in *. simpl in H. lia.
  - induction lines as [|line lines IH].
    + unfold len, total_len. simpl. lia.
    + cbn [flat_map]. rewrite len_app.
      change (total_len (line :: lines)) with (len line + total_len lines)%Z.
      pose proof (tokenize_length R line). lia.
Qed.

(** ** The line sources *)

Lemma existsb_removelast_rev_cons (f : N -> bool) (c : N) (cur : list N) :
  existsb f (removelast (rev (c :: cur))) = existsb f cur.
Proof.
  cbn [rev]. rewrite removelast_last. apply existsb_rev.
Qed.

Lemma stream_line_rev_cons (c : char) (cur : str) :
  existsb (N.eqb 13) cur = false -> existsb (N.eqb 10) cur = false ->
  (c =? 13)%N = false ->
  stream_line (rev (c :: cur)) = true.
Proof.
  intros H13 H10 Hc. unfold stream_line.
  rewrite existsb_removelast_rev_cons, H10, existsb_rev.
  cbn [existsb]. rewrite N.eqb_sym, Hc, H13.
  cbn [rev]. now destruct (rev cur).
Qed.

Lemma readlines_from_stream_lines (n : nat) (text cur : str) :
  (List.length text <= n)%nat ->
  existsb (N.eqb 13) cur = false -> existsb (N.eqb 10) cur = false ->
  forallb stream_line (readlines_from cur text) = true.
Proof.
  revert text cur. induction n as [|n IH]; intros text cur Hn H13 H10.
  - destruct text; [|simpl in Hn; lia].
    destruct cur as [|d cur]; [reflexivity|].
    cbn [readlines_from forallb]. rewrite andb_true_r.
    cbn [existsb] in H13, H10.
    apply orb_false_elim in H13. destruct H13 as [Hd H13].
    apply orb_false_elim in H10. destruct H10 as [_ H10].
    rewrite N.eqb_sym in Hd. now apply stream_line_rev_cons.
  - destruct text as [|c text].
    + apply (IH []); [simpl; lia|assumption..].
    + simpl in Hn. cbn [readlines_from].
      destruct (N.eqb_spec c 10) as [->|Hc10].
      * cbn [forallb]. rewrite stream_line_rev_cons by (assumption || reflexivity).
        apply (IH text []); [lia|reflexivity..].
      * destruct (N.eqb_spec c 13) as [->|Hc13].
        -- destruct text as [|d text].
           ++ cbn [forallb].
              now rewrite stream_line_rev_cons by (assumption || reflexivity).
           ++ simpl in Hn. destruct (d =? 10)%N; cbn [forallb];
                rewrite stream_line_rev_cons by (assumption || reflexivity).
              ** apply (IH text []); [lia|reflexivity..].
              ** apply (IH (d :: text) []); [simpl; lia|reflexivity..].
        -- apply (IH text (c :: cur)); [lia|cbn [existsb]..].
           ++ rewrite H13, orb_false_r. apply N.eqb_neq. congruence.
           ++ rewrite H10, orb_false_r. apply N.eqb_neq. congruence.
Qed.

(** X11. What the file source yields.  A file that opens gives lines that
    are not empty, hold no carriage return, and hold a line feed only as
    their last character, and then ends; a file that does not open gives no
    line and the exception of [open]. *)
Theorem file_source_yields_stream_lines (w : World) (p : str) :
  match open_file w p with
  | Ok _ =>
      forallb stream_line (yielded (read_lines_from_file w p)) = true
      /\ raised (read_lines_from_file w p) = None
  | Raise e =>
      yielded (read_lines_from_file w p) = []
      /\ raised (read_lines_from_file w p) = Some e
  end.
Proof.
  unfold read_lines_from_file.
  destruct (open_file w p) as [text|e]; [|now split].
  destruct (yielded_yield_all (readlines text)) as [-> ->].
  split; [|reflexivity].
  apply (readlines_from_stream_lines (List.length text)); [lia|reflexivity..].
Qed.

Lemma last_after_line_feed (cur text : str) :
  @last char (@app char (@rev char cur) (@cons char 10%N text)) 10%N
  = @last char text 10%N.
Proof.
  induction (@rev char cur) as [|x l IH].
  - destruct text; reflexivity.
  - cbn [app]. rewrite <- IH. now destruct l.
Qed.

Lemma readlines_from_length (text cur : str) :
  existsb (N.eqb 13) text = false ->
  existsb (N.eqb 10) cur = false ->
  len (readlines_from cur text)
  = (line_feeds text + if unterminated (rev cur ++ text) then 1 else 0)%Z.
Proof.
  unfold len, line_feeds, unterminated.
  revert cur. induction text as [|c text IH]; intros cur H13 H10.
  - rewrite app_nil_r. destruct cur as [|d cur]; [reflexivity|].
    cbn [readlines_from rev]. rewrite last_last.
    cbn [existsb] in H10. apply orb_false_elim in H10. destruct H10 as [Hd _].
    rewrite N.eqb_sym in Hd. now rewrite Hd.
  - cbn [existsb] in H13. apply orb_false_elim in H13. destruct H13 as [Hc H13].
    cbn [readlines_from count_occ]. destruct (N.eqb_spec c 10) as [->|Hc10].
    + destruct (N.eq_dec 10 10) as [_|]; [|congruence].
      cbn [List.length]. rewrite Nat2Z.inj_succ, (IH [] H13 eq_refl). cbn [rev app].
      rewrite (last_after_line_feed cur text). lia.
    + rewrite N.eqb_sym in Hc. rewrite Hc.
      destruct (N.eq_dec c 10) as [|_]; [congruence|].
      rewrite (IH (c :: cur) H13).
      * cbn [rev]. now rewrite <- app_assoc.
      * cbn [existsb]. rewrite H10, orb_false_r. apply N.eqb_neq. congruence.
Qed.

(** X12. For a file without carriage returns, the character count is the
    length of the text of the file, and the line count is the number of its
    line feeds, plus one when the text ends in the middle of a line. *)
Theorem file_line_and_char_counts (R : PyRuntime) (w : World) (p text : str) :
  open_file w p = Ok text ->
  existsb (N.eqb 13) text = false ->
  exists word_count counter,
    text_stats (read_lines_from_file w p)
    = Ok ((line_feeds text + if unterminated text then 1 else 0)%Z,
          word_count, len text, counter).
Proof.
  intros Hopen H13. unfold read_lines_from_file. rewrite Hopen.
  eexists _, _. rewrite text_stats_all.
  rewrite (readlines_total_len text H13). unfold readlines.
  rewrite (readlines_from_length text [] H13 eq_refl). reflexivity.
Qed.

Lemma file_line_and_char_counts_witness :
  exists word_count counter,
    @text_stats ascii_runtime
      (read_lines_from_file (file_world (py "a b" ++ 10%N :: py "c") Stop false)
         (py "in.txt"))
    = Ok (2%Z, word_count, 5%Z, counter).
Proof.
  apply (file_line_and_char_counts ascii_runtime
           (file_world (py "a b" ++ 10%N :: py "c") Stop false) (py "in.txt")
           (py "a b" ++ 10%N :: py "c")); reflexivity.
Defined.

(** ** The entry point *)

(** X13. No report unless the whole input was read.  When the line source
    that [main] selects raises while it is read (the file does not open, or
    standard input fails after any number of lines), [main] raises that
    exception, and it has printed, after what the parser printed, only the
    prompt if it read from a terminal: no line of the report. *)
Theorem no_report_when_reading_fails (R : PyRuntime) (argv : option (list str))
    (w : World) (stdout : list str) (args : Namespace) (printed : list str)
    (e : Exn) :
  parse_args (match argv with None => tl (sys_argv w) | Some a => a end)
  = (Ok args, printed) ->
  raised (match path args with
          | Some p =>
              if truthy p then read_lines_from_file w p
              else read_lines_from_stdin w
          | None => read_lines_from_stdin w
          end) = Some e ->
  main argv w stdout
  = (Raise e,
     stdout ++ printed
     ++ match path args with
        | Some p =>
            if truthy p then []
            else if stdin_isatty w then [stdin_prompt] else []
        | None => if stdin_isatty w then [stdin_prompt] else []
        end).
Proof.
  intros Hargs Hraised. unfold main. rewrite Hargs.
  assert (forall lines out,
             raised lines = Some e ->
             match text_stats lines with
             | Ok (line_count, word_count, char_count, counter) =>
                 (Ok 0%Z, print_stats line_count word_count char_count counter out)
             | Raise e' => (Raise e', out)
             end = (Raise e, out)) as Hfail.
  { intros lines out H. unfold text_stats. now rewrite text_stats_loop_spec, H. }
  destruct (path args) as [p|]; [destruct (truthy p)|]; cbv zeta beta iota.
  - rewrite (Hfail _ _ Hraised). now rewrite app_nil_r.
  - rewrite (Hfail _ _ Hraised). unfold print.
    destruct (stdin_isatty w); now rewrite ?app_nil_r, <- ?app_assoc.
  - rewrite (Hfail _ _ Hraised). unfold print.
    destruct (stdin_isatty w); now rewrite ?app_nil_r, <- ?app_assoc.
Qed.

Lemma no_report_when_reading_fails_witness :
  @main ascii_runtime None
    (stdin_world
       (Yield (py "a b" ++ [10%N]) (Fail (UnicodeDecodeError (py "invalid start byte"))))
       true)
    []
  = (Raise (UnicodeDecodeError (py "invalid start byte")), [stdin_prompt]).
Proof.
  apply (no_report_when_reading_fails ascii_runtime None
           (stdin_world
              (Yield (py "a b" ++ [10%N])
                 (Fail (UnicodeDecodeError (py "invalid start byte"))))
              true)
           [] {| path := None |} []
           (UnicodeDecodeError (py "invalid start byte"))); reflexivity.
Defined.

(** X14. With a path, standard input plays no part: the run is the same
    whatever standard input holds and whether or not it is a terminal. *)
Theorem run_with_path_ignores_stdin (R : PyRuntime) (w : World) (p : str)
    (stdin : Gen str) (isatty : bool) :
  parse_args (tl (sys_argv w)) = (Ok {| path := Some p |}, []) ->
  truthy p = true ->
  run (with_stdin w stdin isatty) = run w.
Proof.
  intros Hargs Hp. unfold run.
  rewrite (main_with_path None w [] p Hargs Hp).
  now rewrite (main_with_path None (with_stdin w stdin isatty) [] p Hargs Hp).
Qed.

Lemma run_with_path_ignores_stdin_witness :
  @run ascii_runtime
    (with_stdin (file_world (py "a b") Stop false)
       (Yield (py "x y z") (Fail (OSError 5 []))) true)
  = @run ascii_runtime (file_world (py "a b") Stop false).
Proof.
  apply (run_with_path_ignores_stdin ascii_runtime
           (file_world (py "a b") Stop false) (py "in.txt")); reflexivity.
Defined.

(** X15. Without a path, or with the empty string for a path, the files play
    no part: the run is the same whatever the files are.  When standard input
    is then a terminal, the prompt is the first thing printed, whether reading
    goes on to succeed or to fail. *)
Theorem run_without_path_ignores_files (R : PyRuntime) (w : World)
    (args : Namespace) (files : str -> result str) :
  parse_args (tl (sys_argv w)) = (Ok args, []) ->
  path args = None \/ path args = Some [] ->
  run (with_files w files) = run w
  /\ (stdin_isatty w = true -> exists rest, snd (run w) = stdin_prompt :: rest).
Proof.
  intros Hargs Hp. unfold run.
  rewrite (main_without_path None (with_files w files) [] args Hargs Hp).
  rewrite (main_without_path None w [] args Hargs Hp).
  split; [reflexivity|].
  intros Htty. rewrite Htty. cbv zeta.
  destruct (text_stats (read_lines_from_stdin w)) as [[[[lc wc] cc] counter]|e].
  - rewrite print_stats_spec. unfold print. cbn [app snd]. eexists. reflexivity.
  - unfold print. cbn [app snd]. now exists [].
Qed.

Lemma run_without_path_ignores_files_witness :
  @run ascii_runtime
    (with_files (stdin_world (Yield (py "a b") Stop) true) (fun _ => Ok (py "x")))
  = @run ascii_runtime (stdin_world (Yield (py "a b") Stop) true)
  /\ (stdin_isatty (stdin_world (Yield (py "a b") Stop) true) = true ->
      exists rest,
        snd (@run ascii_runtime (stdin_world (Yield (py "a b") Stop) true))
        = stdin_prompt :: rest).
Proof.
  apply (run_without_path_ignores_files ascii_runtime
           (stdin_world (Yield (py "a b") Stop) true) {| path := None |});
    [reflexivity | now left].
Defined.

(** ** The lines of the report *)

Lemma repr_char_plain (R : PyRuntime) (quote c : char) :
  (c =? quote)%N = false -> (32 <= c < 127)%N -> c <> 92%N ->
  repr_char quote c = [c].
Proof.
  intros Hq Hc H92. unfold repr_char. rewrite Hq.
  destruct (N.eqb_spec c 92); [congruence|].
  destruct (N.eqb_spec c 9); [lia|].
  destruct (N.eqb_spec c 10); [lia|].
  destruct (N.eqb_spec c 13); [lia|].
  destruct (N.ltb_spec c 32); [lia|].
  destruct (N.eqb_spec c 127); [lia|].
  destruct (N.ltb_spec c 127); [reflexivity|lia].
Qed.

Lemma plain_char_spec (c : char) :
  plain_char c = true ->
  (32 <= c < 127)%N /\ c <> 92%N /\ c <> 39%N /\ c <> 34%N.
Proof.
  unfold plain_char. rewrite !andb_true_iff, !negb_true_iff, N.leb_le, N.ltb_lt,
    !N.eqb_neq. tauto.
Qed.

Lemma char_in_plain (c : char) (word : str) :
  c = 34%N \/ c = 92%N ->
  forallb (fun x => plain_char x || (x =? 39)%N) word = true ->
  char_in c word = false.
Proof.
  intros Hc H. destruct (char_in c word) eqn:E; [|reflexivity].
  apply char_in_In in E. rewrite forallb_forall in H. specialize (H c E).
  apply orb_prop in H. destruct H as [H|H].
  - apply plain_char_spec in H. lia.
  - apply N.eqb_eq in H. lia.
Qed.

(** X16. A word of printable ASCII characters without backslash or double
    quote is reported as it is between quotes: apostrophes, or double quotes
    when the word has an apostrophe. *)
Theorem entry_line_plain (R : PyRuntime) (word : str) (cnt : Z) :
  forallb (fun c => plain_char c || (c =? 39)%N) word = true ->
  let quote := if char_in 39%N word then 34%N else 39%N in
  entry_line (word, cnt)
  = py "  " ++ [quote] ++ word ++ [quote] ++ py ": " ++ str_of_int cnt.
Proof.
  intros H. cbv zeta. unfold entry_line, repr. cbn [fst snd].
  rewrite (char_in_plain 34%N word (or_introl eq_refl) H). cbn [negb].
  rewrite andb_true_r.
  match goal with |- context [repr_char ?q] => set (quote := q) end.
  assert (flat_map (repr_char quote) word = word) as ->.
  { assert (forall c, In c word -> (c =? quote)%N = false) as Hq.
    { intros c Hc. unfold quote. destruct (char_in 39%N word) eqn:E.
      - rewrite forallb_forall in H. specialize (H c Hc).
        apply orb_prop in H. destruct H as [H|H].
        + apply plain_char_spec in H. apply N.eqb_neq. lia.
        + apply N.eqb_eq in H. subst c. reflexivity.
      - apply N.eqb_neq. intros ->. apply char_in_In in Hc. congruence. }
    clearbody quote. clear -H Hq. induction word as [|c word IH]; [reflexivity|].
    cbn [flat_map]. cbn [forallb] in H. apply andb_prop in H.
    destruct H as [Hc H].
    rewrite IH by (assumption || (intros x Hx; apply Hq; now right)).
    rewrite repr_char_plain; [reflexivity|apply Hq; now left|..].
    - apply orb_prop in Hc. destruct Hc as [Hc|Hc].
      + now apply plain_char_spec in Hc.
      + apply N.eqb_eq in Hc. lia.
    - apply orb_prop in Hc. destruct Hc as [Hc|Hc].
      + now apply plain_char_spec in Hc.
      + apply N.eqb_eq in Hc. lia. }
  now rewrite <- !app_assoc.
Qed.

Lemma entry_line_plain_witness :
  @entry_line ascii_runtime (py "don't", 2%Z)
  = py "  " ++ [34%N] ++ py "don't" ++ [34%N] ++ py ": " ++ str_of_int 2
  /\ @entry_line ascii_runtime (py "a-b", 1%Z)
     = py "  " ++ [39%N] ++ py "a-b" ++ [39%N] ++ py ": " ++ str_of_int 1.
Proof.
  split.
  - apply (entry_line_plain ascii_runtime (py "don't") 2). reflexivity.
  - apply (entry_line_plain ascii_runtime (py "a-b") 1). reflexivity.
Defined.

Lemma py_inj (s t : string) : py s = py t -> s = t.
Proof.
  unfold py, ord. intros H.
  assert (forall l, map ascii_of_N (map N_of_ascii l) = l) as E.
  { intros l. rewrite map_map. induction l as [|a l IH]; [reflexivity|].
    cbn [map]. now rewrite ascii_N_embedding, IH. }
  apply (f_equal (map ascii_of_N)) in H. rewrite !E in H.
  apply (f_equal string_of_list_ascii) in H.
  now rewrite !string_of_list_ascii_of_string in H.
Qed.

Lemma str_of_int_inj (n m : Z) : str_of_int n = str_of_int m -> n = m.
Proof.
  unfold str_of_int. intros H. apply py_inj in H.
  assert (forall z, NilZero.int_of_string (NilZero.string_of_int (Z.to_int z))
                    = Some (Z.to_int z)) as Hisi.
  { intros z. apply NilZero.isi; destruct z; simpl; try discriminate;
      intros [= E]; now apply DecimalPos.Unsigned.to_uint_nonnil in E. }
  apply DecimalZ.to_int_inj.
  pose proof (Hisi n) as Hn. rewrite H, Hisi in Hn. congruence.
Qed.

(** X17. The report shows the totals without loss: two reports that begin
    with the same three lines come from the same line, word and character
    counts. *)
Theorem report_determines_totals (R : PyRuntime)
    (lc wc cc lc' wc' cc' : Z) (counter counter' : Counter) :
  firstn 3 (print_stats lc wc cc counter [])
  = firstn 3 (print_stats lc' wc' cc' counter' []) ->
  lc = lc' /\ wc = wc' /\ cc = cc'.
Proof.
  rewrite !print_stats_spec. cbn [app firstn]. intros [= H1 H2 H3].
  repeat split; now apply str_of_int_inj.
Qed.

Lemma report_determines_totals_witness :
  (2 = 2 /\ 9 = 9 /\ 35 = 35)%Z.
Proof.
  apply (report_determines_totals ascii_runtime 2 9 35 2 9 35
           [(py "the", 3%Z)] [(py "cat", 2%Z)]).
  reflexivity.
Defined.

(** ** The report of a text *)

Lemma StronglySorted_app_le (l1 l2 : list (str * Z)) :
  StronglySorted count_ge (l1 ++ l2) ->
  forall a b, In a l1 -> In b l2 -> (snd b <= snd a)%Z.
Proof.
  induction l1 as [|x l1 IH]; intros H a b Ha Hb; [destruct Ha|].
  cbn [app] in H. inversion H as [|? ? Hs Hall]; subst.
  destruct Ha as [<-|Ha]; [|now apply IH].
  rewrite Forall_forall in Hall. apply (Hall b). apply in_or_app. now right.
Qed.

(** X18. The words reported for a text are its most common ones: they are
    distinct, each is shown with the number of times it occurs among the
    tokens of the text, and a token that is not reported occurs no more
    often than any reported word. *)
Theorem report_shows_most_common (R : PyRuntime) (lines : list str) :
  exists line_count word_count char_count counter,
    text_stats (yield_all lines) = Ok (line_count, word_count, char_count, counter)
    /\ NoDup (map fst (most_common 5 counter))
    /\ Forall (fun e => snd e = occurrences (flat_map tokenize lines) (fst e)
                        /\ (1 <= snd e)%Z)
              (most_common 5 counter)
    /\ Forall (fun t => In t (map fst (most_common 5 counter))
                        \/ Forall (fun e => (occurrences (flat_map tokenize lines) t
                                             <= snd e)%Z)
                                  (most_common 5 counter))
              (flat_map tokenize lines).
Proof.
  eexists _, _, _, _. split; [apply text_stats_all|].
  set (tokens := flat_map tokenize lines).
  set (counter := counter_update [] tokens).
  pose proof (counter_update_items tokens) as Hitems. fold counter in Hitems.
  assert (NoDup (map fst counter)) as Hnd
    by (apply NoDup_counter_update; constructor).
  pose proof (sorted_by_count_perm counter) as Hperm.
  pose proof (sorted_by_count_sorted counter) as Hsorted.
  unfold most_common. change (Z.to_nat 5) with 5%nat.
  rewrite <- (firstn_skipn 5 (sorted_by_count counter)) in Hperm, Hsorted.
  set (top := firstn 5 (sorted_by_count counter)) in *.
  set (rest := skipn 5 (sorted_by_count counter)) in *.
  assert (forall e, In e top -> In e counter) as Htop.
  { intros e He. apply (Permutation_in _ Hperm). apply in_or_app. now left. }
  repeat split.
  - assert (NoDup (map fst (top ++ rest))) as H.
    { apply (Permutation_NoDup (l := map fst counter)); [|assumption].
      apply Permutation_map. now symmetry. }
    rewrite map_app in H. now apply NoDup_app_remove_r in H.
  - apply Forall_forall. intros e He. rewrite Forall_forall in Hitems.
    now apply Hitems, Htop.
  - apply Forall_forall. intros t Ht.
    assert (In t (map fst counter)) as Hk
      by (apply keys_counter_update; now right).
    apply in_map_iff in Hk. destruct Hk as ([k v] & Hfst & Hin).
    cbn [fst] in Hfst. subst k.
    apply (Permutation_in _ (Permutation_sym Hperm)) in Hin as Hin'.
    apply in_app_or in Hin'. destruct Hin' as [Hin'|Hin'].
    + left. apply in_map_iff. now exists (t, v).
    + right. apply Forall_forall. intros e He.
      rewrite Forall_forall in Hitems. destruct (Hitems _ Hin) as [Hv _].
      cbn [fst snd] in Hv. rewrite <- Hv.
      apply (StronglySorted_app_le top rest Hsorted e (t, v) He Hin').
Qed.
